(** * fin-wise-app: the retrieval-augmented chatbot backend (src/backend.py)

    A shallow embedding of the FastAPI service: the three format parsers,
    the ingestion endpoint, the chat endpoint with its confidence
    heuristic, the admin endpoints, and the dependency check that guards
    them.

    Conventions of the embedding
    - A Python [str] is the list of its Unicode code points.
    - A Python [float] is a binary64 number: Rocq's primitive floats.
    - An endpoint is a computation over the state of the world (the module
      globals, the Redis database, the clock, and the trace of calls made to
      the external collaborators) that either returns a response model
      (HTTP 200) or raises; a raised [HTTPException] is the HTTP error
      with that status code.
    - What the third-party libraries compute (file decoding, text splitting,
      similarity ranking, text generation) is not code of this repository:
      it is a parameter, the record [Externals].
    - Logging is not modelled. *)

From Stdlib Require Import ZArith NArith QArith List String Ascii Bool Lia Floats.
From Stdlib Require Import Qabs Qminmax.
Import ListNotations.

Set Warnings "-inexact-float".

Close Scope Q_scope.
Local Open Scope list_scope.
Local Open Scope nat_scope.

(* ===================================================================== *)
(** ** Python strings *)
(* ===================================================================== *)

Module Str.

(** A [str] is a sequence of code points. *)
Definition str := list N.

(** An ASCII literal of the source. *)
Definition lit (s : string) : str :=
  map N_of_ascii (list_ascii_of_string s).

(** The line feed, written [\n] in the source. *)
Definition LF : str := [10%N].

Fixpoint eqb (a b : str) : bool :=
  match a, b with
  | [], [] => true
  | x :: a', y :: b' => N.eqb x y && eqb a' b'
  | _, _ => false
  end.

(** [not s] for a string [s]. *)
Definition is_empty (s : str) : bool :=
  match s with [] => true | _ :: _ => false end.

(** [sep.join(parts)] *)
Fixpoint join (sep : str) (parts : list str) : str :=
  match parts with
  | [] => []
  | [x] => x
  | x :: rest => x ++ sep ++ join sep rest
  end.

(** The code points for which [str.isspace] holds (CPython's
    [_PyUnicode_IsWhitespace]). *)
Definition is_whitespace (c : N) : bool :=
  ((9 <=? c) && (c <=? 13) || (28 <=? c) && (c <=? 32)
   || (c =? 133) || (c =? 160) || (c =? 5760)
   || (8192 <=? c) && (c <=? 8202)
   || (c =? 8232) || (c =? 8233) || (c =? 8239) || (c =? 8287)
   || (c =? 12288))%N.

(** [s.isspace()]: every character is whitespace and there is at least
    one. *)
Definition isspace (s : str) : bool :=
  match s with
  | [] => false
  | _ :: _ => forallb is_whitespace s
  end.

Fixpoint uint_codes (d : Decimal.uint) : str :=
  match d with
  | Decimal.Nil => []
  | Decimal.D0 d => 48%N :: uint_codes d
  | Decimal.D1 d => 49%N :: uint_codes d
  | Decimal.D2 d => 50%N :: uint_codes d
  | Decimal.D3 d => 51%N :: uint_codes d
  | Decimal.D4 d => 52%N :: uint_codes d
  | Decimal.D5 d => 53%N :: uint_codes d
  | Decimal.D6 d => 54%N :: uint_codes d
  | Decimal.D7 d => 55%N :: uint_codes d
  | Decimal.D8 d => 56%N :: uint_codes d
  | Decimal.D9 d => 57%N :: uint_codes d
  end.

(** [str(z)] for an [int]. *)
Definition of_Z (z : Z) : str :=
  match Z.to_int z with
  | Decimal.Pos d => uint_codes d
  | Decimal.Neg d => 45%N :: uint_codes d
  end.

Definition of_nat (n : nat) : str := of_Z (Z.of_nat n).

(** [str(b)] for a [bool]. *)
Definition of_bool (b : bool) : str :=
  if b then lit "True" else lit "False".

End Str.

Import Str.

(* ===================================================================== *)
(** ** Python floats *)
(* ===================================================================== *)

Module PyFloat.

Local Open Scope float_scope.

(** [min(a, b)] on two floats: the second argument wins only when it is
    strictly smaller. *)
Definition min (a b : float) : float :=
  if PrimFloat.ltb b a then b else a.

(** [float(n)] for the length of a list. *)
Definition of_len (n : nat) : float :=
  PrimFloat.of_uint63 (Uint63.of_Z (Z.of_nat n)).

(** The exact rational value of a finite binary64 number. *)
Definition to_Q (f : float) : option Q :=
  match Prim2SF f with
  | S754_zero _ => Some 0%Q
  | S754_finite s m e =>
      Some (Qmult (inject_Z (if s then Z.neg m else Z.pos m))
                  (Qpower 2 e))
  | _ => None
  end.

(** [f] is the number [q] up to the last binary digit of a binary64
    number of magnitude at most one: it is finite and within [2^-53] of
    [q]. *)
Definition approximates (f : float) (q : Q) : Prop :=
  exists v, to_Q f = Some v /\
            Qle (Qabs (Qminus v q)) (Qpower 2 (-53)).

End PyFloat.

(* ===================================================================== *)
(** ** Outcomes of a call *)
(* ===================================================================== *)

(** What a call can raise. [HTTPException] is FastAPI's; [Exception]
    stands for any other exception, raised by a library. *)
Inductive exn : Type :=
| HTTPException (status_code : Z) (detail : str)
| Exception (what : str).

Inductive outcome (A : Type) : Type :=
| Return (a : A)
| Raise (e : exn).

Arguments Return {A} a.
Arguments Raise {A} e.

Definition bytes := list Byte.byte.

(* ===================================================================== *)
(** ** Data models *)
(* ===================================================================== *)

Record ChatRequest : Type := {
  message : str;
  request_user_id : str
}.

Record ChatResponse : Type := {
  response : str;
  user_id : str;
  confidence_score : float;
  suggest_ticket : bool
}.

Record HealthResponse : Type := {
  status : str;
  service : str;
  timestamp : str
}.

Record UploadResponse : Type := {
  upload_success : bool;
  upload_message : str;
  documents_processed : nat;
  total_chunks_created : nat
}.

Record ClearResponse : Type := {
  clear_success : bool;
  clear_message : str
}.

(** The metadata dictionary built for every chunk. *)
Record Metadata : Type := {
  fileName : str;
  fileType : str;
  userId : str;
  chunkIndex : nat;
  totalChunks : nat;
  category : str;
  uploadTimestamp : str
}.

Record LangChainDocument : Type := {
  page_content : str;
  metadata : Metadata
}.

(** An uploaded file: its name, its declared content type (absent when
    the part carries none) and what [await file.read()] gives. *)
Record UploadFile : Type := {
  filename : str;
  content_type : option str;
  read : outcome bytes
}.

(* ===================================================================== *)
(** ** Decoded documents, as the parsing libraries present them *)
(* ===================================================================== *)

(** The value of a spreadsheet cell. A float, a date or any other value
    is carried with its [str()] rendering. *)
Inductive CellValue : Type :=
| VStr (s : str)
| VInt (z : Z)
| VBool (b : bool)
| VRepr (repr : str).

(** [cell.value]: [None] for an empty cell. *)
Definition Cell := option CellValue.

(** The rows of a worksheet, each a tuple of cells. *)
Definition Rows := list (list Cell).

(** A sheet of a workbook: a worksheet with its rows, or a chart sheet,
    which [wb.sheetnames] lists and [wb[name]] returns like any other but
    which has no cells. *)
Inductive Sheet : Type :=
| Worksheet (rows : Rows)
| Chartsheet.

Definition ATTRIBUTE_ERROR : exn := Exception (lit "AttributeError").

(** [sheet.iter_rows()]: the rows of a worksheet; a chart sheet has no
    such method. *)
Definition iter_rows (sheet : Sheet) : outcome Rows :=
  match sheet with
  | Worksheet rows => Return rows
  | Chartsheet => Raise ATTRIBUTE_ERROR
  end.

Fixpoint nodupb (l : list str) : bool :=
  match l with
  | [] => true
  | x :: rest => negb (existsb (Str.eqb x) rest) && nodupb rest
  end.

(** An openpyxl workbook: its sheets in workbook order, under titles
    that openpyxl keeps pairwise distinct. *)
Record Workbook : Type := {
  sheets : list (str * Sheet);
  titles_distinct : nodupb (map fst sheets) = true
}.

(** [wb.sheetnames] *)
Definition sheetnames (wb : Workbook) : list str := map fst (sheets wb).

(** [wb[sheet_name]]: the sheet of that title, [KeyError] when there is
    none. *)
Fixpoint find_sheet (l : list (str * Sheet)) (sheet_name : str)
  : outcome Sheet :=
  match l with
  | [] => Raise (Exception (lit "KeyError"))
  | (title, sheet) :: rest =>
      if Str.eqb title sheet_name then Return sheet
      else find_sheet rest sheet_name
  end.

Definition getitem (wb : Workbook) (sheet_name : str) : outcome Sheet :=
  find_sheet (sheets wb) sheet_name.

(** A PDF page: what [page.extract_text()] gives on it. *)
Definition Page := outcome (option str).

(* ===================================================================== *)
(** ** The state of the world *)
(* ===================================================================== *)

Definition IndexSchema := str.

(** The client objects created at import time. *)
Record RedisVectorStore : Type := {
  vs_redis_url : str;
  vs_index_name : str;
  schema : IndexSchema
}.

(** The text splitter created at import time. *)
Record RecursiveCharacterTextSplitter : Type := {
  chunk_size : nat;
  chunk_overlap : nat
}.

Record OllamaLLM : Type := { llm_model : str }.
Record OllamaEmbeddings : Type := { embedding_model : str }.
Record RedisClient : Type := { client_url : str }.

(** The module globals that [get_services] inspects. *)
Record Globals : Type := {
  vectorstore : option RedisVectorStore;
  chat_model : option OllamaLLM;
  redis_client : option RedisClient
}.

(** The calls made to the external collaborators. *)
Inductive Call : Type :=
| SimilaritySearch (query : str) (k : nat)
| ModelInvoke (messages : list (str * str))
| AddDocuments (docs : list LangChainDocument)
| FlushDb
| CheckIndexSchema.

Record World : Type := {
  globals : Globals;
  (** the chunks held by the vector index *)
  index_docs : list LangChainDocument;
  (** every other key of the Redis database *)
  other_keys : list (str * str);
  (** how many times the clock has been read *)
  clock_reads : nat;
  (** the calls made so far, oldest first *)
  trace : list Call
}.

(** What the libraries and services behind the backend compute. *)
Record Externals : Type := {
  (** [pypdf.PdfReader(io.BytesIO(contents)).pages] *)
  PdfReader : bytes -> outcome (list Page);
  (** the text of each of [docx.Document(io.BytesIO(contents)).paragraphs] *)
  Document : bytes -> outcome (list str);
  (** [openpyxl.load_workbook(io.BytesIO(contents))] *)
  load_workbook : bytes -> outcome Workbook;
  (** [text_splitter.split_text], with chunk size 1000 and overlap 200 *)
  split_text : str -> outcome (list str);
  (** [datetime.datetime.now().isoformat()] at the n-th reading of the
      clock *)
  now_isoformat : nat -> str;
  (** the chunks of the index ranked by similarity to the embedded query,
      nearest first *)
  similarity_ranking : World -> str -> outcome (list LangChainDocument);
  (** the text the chat model generates for the rendered prompt *)
  generate : World -> list (str * str) -> outcome str;
  (** whether embedding and writing the chunks fails *)
  add_documents_error : World -> list LangChainDocument -> option exn;
  (** whether flushing the database fails *)
  flushdb_error : World -> option exn;
  (** [Redis.check_index_schema(...)] *)
  check_index_schema : World -> outcome IndexSchema
}.

(* ===================================================================== *)
(** ** Computations over the world *)
(* ===================================================================== *)

(** A computation keeps the changes it made to the world when it raises,
    as Python does. *)
Definition M (A : Type) : Type := World -> outcome A * World.

Definition ret {A} (a : A) : M A := fun w => (Return a, w).

Definition raise {A} (e : exn) : M A := fun w => (Raise e, w).

Definition bind {A B} (m : M A) (k : A -> M B) : M B :=
  fun w =>
    match m w with
    | (Return a, w') => k a w'
    | (Raise e, w') => (Raise e, w')
    end.

(** [try: body  except Exception as e: handler(e)] *)
Definition try_except {A} (body : M A) (handler : exn -> M A) : M A :=
  fun w =>
    match body w with
    | (Return a, w') => (Return a, w')
    | (Raise e, w') => handler e w'
    end.

(** The outcome of a call that does not touch the world. *)
Definition lift {A} (o : outcome A) : M A := fun w => (o, w).

Declare Scope monad_scope.
Delimit Scope monad_scope with monad.
Notation "x <- m ;; k" := (bind m (fun x => k))
  (at level 61, m at next level, right associativity) : monad_scope.
Notation "m ;;; k" := (bind m (fun _ => k))
  (at level 61, right associativity) : monad_scope.

(** The same sequencing for calls that only return or raise. *)
Definition obind {A B} (o : outcome A) (k : A -> outcome B) : outcome B :=
  match o with
  | Return a => k a
  | Raise e => Raise e
  end.

Definition log_call (c : Call) (w : World) : World :=
  {| globals := globals w;
     index_docs := index_docs w;
     other_keys := other_keys w;
     clock_reads := clock_reads w;
     trace := trace w ++ [c] |}.

Local Open Scope monad_scope.

(* ===================================================================== *)
(** ** Module constants *)
(* ===================================================================== *)

Definition REDIS_URL : str := lit "redis://localhost:6379".
Definition INDEX_NAME : str := lit "financial_literacy_docs".

Definition indent : str := lit "        ".

(** [SYSTEM_PROMPT] with [{documents}] filled in. *)
Definition SYSTEM_PROMPT (documents : str) : str :=
  LF
  ++ indent ++ lit "You are a financial assistant. Provide concise, helpful answers using the context below." ++ LF
  ++ indent ++ lit "Keep responses under 150 words for mobile users." ++ LF
  ++ indent ++ LF
  ++ indent ++ lit "CONTEXT:" ++ LF
  ++ indent ++ documents ++ LF
  ++ indent.

(** The separator between the retrieved chunks in the context block. *)
Definition CONTEXT_SEPARATOR : str := LF ++ lit "---" ++ LF.

(** The context when nothing was retrieved. *)
Definition NO_CONTEXT : str := lit "No specific context available.".

(** The notice appended to a low-confidence answer. Its first four
    characters after the blank line are U+00F0, U+0178, U+2019 and U+00A1,
    as the source file spells them. *)
Definition TICKET_NOTICE : str :=
  LF ++ LF ++ [240%N; 376%N; 8217%N; 161%N]
  ++ lit " **Need more help?** Contact our customer service team for personalized assistance.".

Definition ADMIN_KEY : str := lit "admin123".

Definition SERVICE_UNAVAILABLE : exn :=
  HTTPException 503 (lit "Core services (Ollama/Redis) are not available.").

(** What the chat endpoint raises for any exception in its [try]. *)
Definition INTERNAL_ERROR : exn :=
  HTTPException 500 (lit "Internal server error occurred.").

(* ===================================================================== *)
(** ** Start-up *)
(* ===================================================================== *)

(** The [try] block at import time: the embeddings, the chat model, the
    vector store, the Redis client and the text splitter are created one
    after the other, and any exception leaves all three globals [None]. *)
Definition initialize
    (new_embeddings : outcome OllamaEmbeddings)
    (new_chat_model : outcome OllamaLLM)
    (new_vectorstore : OllamaEmbeddings -> outcome RedisVectorStore)
    (new_redis_client : outcome RedisClient)
    (new_text_splitter : outcome RecursiveCharacterTextSplitter) : Globals :=
  let created :=
    obind new_embeddings (fun embeddings =>
    obind new_chat_model (fun chat_model =>
    obind (new_vectorstore embeddings) (fun vectorstore =>
    obind new_redis_client (fun redis_client =>
    obind new_text_splitter (fun text_splitter =>
    Return (vectorstore, chat_model, redis_client)))))) in
  match created with
  | Return (vectorstore, chat_model, redis_client) =>
      {| vectorstore := Some vectorstore;
         chat_model := Some chat_model;
         redis_client := Some redis_client |}
  | Raise _ =>
      {| vectorstore := None; chat_model := None; redis_client := None |}
  end.

(* ===================================================================== *)
(** ** Dependency check *)
(* ===================================================================== *)

Definition Services : Type := (RedisVectorStore * OllamaLLM * RedisClient)%type.

Definition get_services : M Services :=
  fun w =>
    match vectorstore (globals w), chat_model (globals w),
          redis_client (globals w) with
    | Some vs, Some cm, Some rc => (Return (vs, cm, rc), w)
    | _, _, _ => (Raise SERVICE_UNAVAILABLE, w)
    end.

(** The condition under which [get_services] raises. *)
Definition services_unavailable (g : Globals) : Prop :=
  vectorstore g = None \/ chat_model g = None \/ redis_client g = None.

Definition services_available (g : Globals) : Prop :=
  exists vs cm rc,
    vectorstore g = Some vs /\ chat_model g = Some cm /\
    redis_client g = Some rc.

Section Backend.

Variable ext : Externals.

(* =================================================================== *)
(** ** Document parsers *)
(* =================================================================== *)

(** [x or ""] *)
Definition or_empty (x : option str) : str :=
  match x with
  | Some s => s
  | None => []
  end.

(** The loop of [parse_pdf], from the text accumulated so far. *)
Fixpoint parse_pdf_loop (text : str) (pages : list Page) : outcome str :=
  match pages with
  | [] => Return text
  | page :: rest =>
      obind page (fun extracted =>
      parse_pdf_loop (text ++ or_empty extracted) rest)
  end.

Definition parse_pdf (contents : bytes) : outcome str :=
  obind (PdfReader ext contents) (fun pages =>
  parse_pdf_loop [] pages).

Fixpoint parse_docx_loop (text : str) (paragraphs : list str) : str :=
  match paragraphs with
  | [] => text
  | para :: rest => parse_docx_loop (text ++ (para ++ LF)) rest
  end.

Definition parse_docx (contents : bytes) : outcome str :=
  obind (Document ext contents) (fun paragraphs =>
  Return (parse_docx_loop [] paragraphs)).

(** [str(cell.value)] *)
Definition cell_str (v : CellValue) : str :=
  match v with
  | VStr s => s
  | VInt z => Str.of_Z z
  | VBool b => Str.of_bool b
  | VRepr repr => repr
  end.

(** [[str(cell.value) for cell in row if cell.value is not None]] *)
Fixpoint row_values (row : list Cell) : list str :=
  match row with
  | [] => []
  | None :: rest => row_values rest
  | Some v :: rest => cell_str v :: row_values rest
  end.

(** The delimiter between the cells of a row. *)
Definition CELL_DELIMITER : str := lit " | ".

(** The loop over the rows of one sheet. *)
Fixpoint parse_xlsx_rows (text : str) (rows : Rows) : str :=
  match rows with
  | [] => text
  | row :: rest =>
      match row_values row with
      | [] => parse_xlsx_rows text rest
      | (_ :: _) as values =>
          parse_xlsx_rows (text ++ (join CELL_DELIMITER values ++ LF)) rest
      end
  end.

(** The loop over [wb.sheetnames]. *)
Fixpoint parse_xlsx_sheets (wb : Workbook) (text : str)
    (names : list str) : outcome str :=
  match names with
  | [] => Return text
  | sheet_name :: rest =>
      obind (getitem wb sheet_name) (fun sheet =>
      let text := text ++ (lit "Sheet: " ++ sheet_name ++ LF) in
      obind (iter_rows sheet) (fun rows =>
      let text := parse_xlsx_rows text rows in
      let text := text ++ LF in
      parse_xlsx_sheets wb text rest))
  end.

(** The text of a loaded workbook. *)
Definition workbook_text (wb : Workbook) : outcome str :=
  parse_xlsx_sheets wb [] (sheetnames wb).

Definition parse_xlsx (contents : bytes) : outcome str :=
  obind (load_workbook ext contents) workbook_text.

(* =================================================================== *)
(** ** External calls *)
(* =================================================================== *)

(** [vectorstore.as_retriever(search_kwargs={"k": k}).invoke(query)]:
    the [k] nearest chunks. *)
Definition retriever_invoke (vs : RedisVectorStore) (k : nat)
    (query : str) : M (list LangChainDocument) :=
  fun w =>
    let w' := log_call (SimilaritySearch query k) w in
    match similarity_ranking ext w query with
    | Return ranked => (Return (firstn k ranked), w')
    | Raise e => (Raise e, w')
    end.

(** The two messages that [prompt_template] renders. *)
Definition render_prompt (documents query : str) : list (str * str) :=
  [(lit "system", SYSTEM_PROMPT documents); (lit "human", query)].

(** [(prompt_template | chat_model | StrOutputParser()).invoke(...)] *)
Definition chain_invoke (cm : OllamaLLM) (documents query : str) : M str :=
  fun w =>
    let messages := render_prompt documents query in
    (generate ext w messages, log_call (ModelInvoke messages) w).

(** [vectorstore.add_documents(docs)]: the chunks join the index unless
    embedding or writing them fails. *)
Definition add_documents (vs : RedisVectorStore)
    (docs : list LangChainDocument) : M unit :=
  fun w =>
    let w' := log_call (AddDocuments docs) w in
    match add_documents_error ext w docs with
    | Some e => (Raise e, w')
    | None =>
        (Return tt,
         {| globals := globals w';
            index_docs := index_docs w' ++ docs;
            other_keys := other_keys w';
            clock_reads := clock_reads w';
            trace := trace w' |})
    end.

(** [redis_client.flushdb()]: every key of the database goes. *)
Definition flushdb (rc : RedisClient) : M unit :=
  fun w =>
    let w' := log_call FlushDb w in
    match flushdb_error ext w with
    | Some e => (Raise e, w')
    | None =>
        (Return tt,
         {| globals := globals w';
            index_docs := [];
            other_keys := [];
            clock_reads := clock_reads w';
            trace := trace w' |})
    end.

Definition Redis_check_index_schema : M IndexSchema :=
  fun w => (check_index_schema ext w, log_call CheckIndexSchema w).

(** [vectorstore.schema = s], on the global [vectorstore]. *)
Definition set_vectorstore_schema (s : IndexSchema) : M unit :=
  fun w =>
    match vectorstore (globals w) with
    | None => (Raise (Exception (lit "AttributeError")), w)
    | Some vs =>
        (Return tt,
         {| globals :=
              {| vectorstore :=
                   Some {| vs_redis_url := vs_redis_url vs;
                           vs_index_name := vs_index_name vs;
                           schema := s |};
                 chat_model := chat_model (globals w);
                 redis_client := redis_client (globals w) |};
            index_docs := index_docs w;
            other_keys := other_keys w;
            clock_reads := clock_reads w;
            trace := trace w |})
    end.

(** [datetime.datetime.now().isoformat()] *)
Definition datetime_now_isoformat : M str :=
  fun w =>
    (Return (now_isoformat ext (clock_reads w)),
     {| globals := globals w;
        index_docs := index_docs w;
        other_keys := other_keys w;
        clock_reads := S (clock_reads w);
        trace := trace w |}).

(* =================================================================== *)
(** ** POST /api/v1/chatbot/chat *)
(* =================================================================== *)

Local Open Scope float_scope.

(** Step 2: the context block of the prompt. *)
Definition context_block (relevant_docs : list LangChainDocument) : str :=
  let doc_texts := map page_content relevant_docs in
  let documents_context := join CONTEXT_SEPARATOR doc_texts in
  if is_empty documents_context then NO_CONTEXT else documents_context.

(** Step 5: the confidence score. *)
Definition confidence (relevant_docs : list LangChainDocument) : float :=
  match relevant_docs with
  | [] => 0.2
  | _ :: _ =>
      PyFloat.min 1.0
        (0.5 + ((PyFloat.of_len (List.length relevant_docs) / 3.0) * 0.5))
  end.

Definition chat (request : ChatRequest) : M ChatResponse :=
  services <- get_services ;;
  let '(vs, cm, _) := services in
  try_except
    (relevant_docs <- retriever_invoke vs 3 (message request) ;;
     let documents_context := context_block relevant_docs in
     response_text <- chain_invoke cm documents_context (message request) ;;
     let confidence_score := confidence relevant_docs in
     let suggest_ticket := PrimFloat.ltb confidence_score 0.5 in
     let response_text :=
       if suggest_ticket then response_text ++ TICKET_NOTICE
       else response_text in
     ret {| response := response_text;
            user_id := request_user_id request;
            confidence_score := confidence_score;
            suggest_ticket := suggest_ticket |})
    (fun _ =>
       raise (HTTPException 500 (lit "Internal server error occurred."))).

Local Close Scope float_scope.

(* =================================================================== *)
(** ** POST /api/v1/chatbot/documents/upload-multiple *)
(* =================================================================== *)

Fixpoint dict_get {V : Type} (d : list (str * V)) (key : str) : option V :=
  match d with
  | [] => None
  | (k, v) :: rest => if Str.eqb k key then Some v else dict_get rest key
  end.

Definition parsers : list (str * (bytes -> outcome str)) :=
  [ (lit "application/pdf", parse_pdf);
    (lit "application/vnd.openxmlformats-officedocument.wordprocessingml.document",
     parse_docx);
    (lit "application/msword", parse_docx);
    (lit "application/vnd.openxmlformats-officedocument.spreadsheetml.sheet",
     parse_xlsx);
    (lit "application/vnd.ms-excel", parse_xlsx) ].

(** [parsers[file.content_type]], [None] when
    [file.content_type not in parsers]. *)
Definition parser_for (file : UploadFile) : option (bytes -> outcome str) :=
  match content_type file with
  | None => None
  | Some mime => dict_get parsers mime
  end.

(** The three accumulators of the loop over the files. *)
Record Tally : Type := {
  total_chunks : nat;
  docs_processed : nat;
  all_langchain_docs : list LangChainDocument
}.

(** [for i, chunk in enumerate(chunks)], from index [i] on. *)
Fixpoint tag_chunks (file_name file_type uploader : str) (count : nat)
    (i : nat) (chunks : list str) (docs : list LangChainDocument)
  : M (list LangChainDocument) :=
  match chunks with
  | [] => ret docs
  | chunk :: rest =>
      now <- datetime_now_isoformat ;;
      let metadata :=
        {| fileName := file_name;
           fileType := file_type;
           userId := uploader;
           chunkIndex := i;
           totalChunks := count;
           category := lit "financial_literacy";
           uploadTimestamp := now |} in
      tag_chunks file_name file_type uploader count (S i) rest
        (docs ++ [ {| page_content := chunk; metadata := metadata |} ])
  end.

(** [not extracted_text or extracted_text.isspace()] *)
Definition no_text (extracted_text : str) : bool :=
  is_empty extracted_text || isspace extracted_text.

(** The body of the [try] for one file of a supported type. *)
Definition process_file (parser : bytes -> outcome str)
    (file : UploadFile) (uploader : str) (t : Tally) : M Tally :=
  contents <- lift (read file) ;;
  extracted_text <- lift (parser contents) ;;
  if no_text extracted_text then ret t
  else
    chunks <- lift (split_text ext extracted_text) ;;
    docs <- tag_chunks (filename file) (or_empty (content_type file))
              uploader (List.length chunks) 0 chunks (all_langchain_docs t) ;;
    ret {| total_chunks := total_chunks t + List.length chunks;
           docs_processed := docs_processed t + 1;
           all_langchain_docs := docs |}.

(** [for file in files] *)
Fixpoint upload_loop (files : list UploadFile) (uploader : str)
    (t : Tally) : M Tally :=
  match files with
  | [] => ret t
  | file :: rest =>
      match parser_for file with
      | None => upload_loop rest uploader t
      | Some parser =>
          t' <- try_except (process_file parser file uploader t)
                  (fun _ =>
                     raise (HTTPException 500
                              (lit "Error processing file: "
                               ++ filename file))) ;;
          upload_loop rest uploader t'
      end
  end.

Definition upload_multiple_documents (files : list UploadFile)
    (uploader : str) : M UploadResponse :=
  services <- get_services ;;
  let '(vs, _, _) := services in
  match files with
  | [] => raise (HTTPException 400 (lit "No files provided"))
  | _ :: _ =>
      t <- upload_loop files uploader
             {| total_chunks := 0; docs_processed := 0;
                all_langchain_docs := [] |} ;;
      match all_langchain_docs t with
      | [] => ret tt
      | (_ :: _) as docs =>
          try_except (add_documents vs docs)
            (fun _ =>
               raise (HTTPException 500
                        (lit "Error adding documents to vector store.")))
      end ;;;
      ret {| upload_success := true;
             upload_message :=
               lit "Successfully processed "
               ++ Str.of_nat (docs_processed t)
               ++ lit " files into "
               ++ Str.of_nat (total_chunks t) ++ lit " chunks.";
             documents_processed := docs_processed t;
             total_chunks_created := total_chunks t |}
  end.

(* =================================================================== *)
(** ** DELETE /api/v1/chatbot/documents/clear-all *)
(* =================================================================== *)

Definition clear_all_documents (admin_key : str) : M ClearResponse :=
  services <- get_services ;;
  let '(_, _, rc) := services in
  if negb (Str.eqb admin_key ADMIN_KEY) then
    raise (HTTPException 403 (lit "Unauthorized"))
  else
    try_except
      (flushdb rc ;;;
       s <- Redis_check_index_schema ;;
       set_vectorstore_schema s ;;;
       ret {| clear_success := true;
              clear_message :=
                lit "All documents cleared successfully. The index is ready for new uploads." |})
      (fun _ =>
         raise (HTTPException 500 (lit "Failed to clear documents."))).

(* =================================================================== *)
(** ** GET /health *)
(* =================================================================== *)

Definition health_check : M HealthResponse :=
  now <- datetime_now_isoformat ;;
  ret {| status := lit "healthy";
         service := lit "Financial Literacy Chatbot";
         timestamp := now |}.

End Backend.

(* ===================================================================== *)
(** ** Specification-side definitions *)
(* ===================================================================== *)

(** A chat call whose collaborators all answer: the services are up, the
    retrieval step returns [docs] and the chat model returns [text] for
    the prompt built from them, leaving the world [w']. *)
Inductive chat_run (ext : Externals) (request : ChatRequest) (w : World)
  : list LangChainDocument -> str -> World -> Prop :=
| ChatRun vs cm rc docs w1 text w' :
    get_services w = (Return (vs, cm, rc), w) ->
    retriever_invoke ext vs 3 (message request) w = (Return docs, w1) ->
    chain_invoke ext cm (context_block docs) (message request) w1
      = (Return text, w') ->
    chat_run ext request w docs text w'.

(** The confidence score as the specification words it, from the number
    of retrieved chunks. *)
Definition confidence_formula (retrieved_count : nat) : float :=
  if Nat.eqb retrieved_count 0 then 0.2%float
  else PyFloat.min 1.0%float
         (0.5 + ((PyFloat.of_len retrieved_count / 3.0) * 0.5))%float.

(** The same formula over the rationals, without rounding. *)
Definition confidence_exact (retrieved_count : nat) : Q :=
  if Nat.eqb retrieved_count 0 then (1 # 5)%Q
  else Qmin 1 ((1 # 2) + ((inject_Z (Z.of_nat retrieved_count) / 3) * (1 # 2)))%Q.

(** What reading a file and parsing its contents gives. *)
Definition extracted_text (parser : bytes -> outcome str) (file : UploadFile)
  : outcome str :=
  obind (read file) parser.

(** A file of the batch raises a parse exception: its type is supported,
    it is read, and its parser raises on the contents. *)
Definition raises_on_parse (ext : Externals) (file : UploadFile) : Prop :=
  exists parser contents e,
    parser_for ext file = Some parser /\
    read file = Return contents /\
    parser contents = Raise e.

(** A valid file: of a supported MIME type and yielding text that is
    neither empty nor all whitespace. *)
Definition valid_file (ext : Externals) (file : UploadFile) : Prop :=
  exists parser text,
    parser_for ext file = Some parser /\
    extracted_text parser file = Return text /\
    no_text text = false.

(** A file that the ingestion loop passes over: of an unsupported MIME
    type, or read and parsed into empty or whitespace-only text. *)
Definition skipped_file (ext : Externals) (file : UploadFile) : Prop :=
  parser_for ext file = None \/
  exists parser text,
    parser_for ext file = Some parser /\
    extracted_text parser file = Return text /\
    no_text text = true.

(** The world [w'] differs from [w] at most in the clock: same globals,
    same database, and no call made to a collaborator in between. *)
Definition same_store (w w' : World) : Prop :=
  globals w' = globals w /\
  index_docs w' = index_docs w /\
  other_keys w' = other_keys w /\
  trace w' = trace w.

(** What the ingestion endpoint raises for an exception in the [try] of
    a file. *)
Definition processing_error (file : UploadFile) : exn :=
  HTTPException 500 (lit "Error processing file: " ++ filename file).

(** The response for a batch that produced nothing. *)
Definition NOTHING_PROCESSED : UploadResponse :=
  {| upload_success := true;
     upload_message := lit "Successfully processed 0 files into 0 chunks.";
     documents_processed := 0;
     total_chunks_created := 0 |}.

(** The words of the specification for a workbook: the values of the
    non-empty cells of a row, whether a row is fully empty, the line of a
    row, and the block of a sheet (its header line, one line per row
    that is not fully empty, and the blank line that closes it). *)
Definition present_values (row : list Cell) : list CellValue :=
  flat_map (fun cell => match cell with Some v => [v] | None => [] end) row.

Definition fully_empty (row : list Cell) : bool :=
  forallb (fun cell => match cell with None => true | Some _ => false end) row.

Definition row_line (row : list Cell) : str :=
  join CELL_DELIMITER (map cell_str (present_values row)) ++ LF.

Definition sheet_block (sheet : str * Rows) : str :=
  (lit "Sheet: " ++ fst sheet ++ LF)
  ++ List.concat (map row_line (filter (fun row => negb (fully_empty row)) (snd sheet)))
  ++ LF.

(** The rows of a sheet, none for a chart sheet. *)
Definition rows_of (sheet : Sheet) : Rows :=
  match sheet with
  | Worksheet rows => rows
  | Chartsheet => []
  end.

Definition is_chartsheet (sheet : Sheet) : bool :=
  match sheet with
  | Worksheet _ => false
  | Chartsheet => true
  end.

(** Whether a workbook lists a chart sheet. *)
Definition has_chartsheet (wb : Workbook) : bool :=
  existsb (fun sheet => is_chartsheet (snd sheet)) (sheets wb).

Definition workbook_text_spec (wb : Workbook) : str :=
  List.concat
    (map (fun sheet => sheet_block (fst sheet, rows_of (snd sheet)))
       (sheets wb)).

(** The words for a PDF: the first page whose extraction raises, if any,
    and the text a page contributes. *)
Fixpoint first_failure (pages : list Page) : option exn :=
  match pages with
  | [] => None
  | Raise e :: _ => Some e
  | Return _ :: rest => first_failure rest
  end.

Definition page_text (page : Page) : str :=
  match page with
  | Return extracted => or_empty extracted
  | Raise _ => []
  end.

(** A paragraph, or a page text, with nothing but whitespace in it. *)
Definition blank (s : str) : bool := forallb is_whitespace s.

(** The world after [n] more readings of the clock. *)
Definition after_readings (n : nat) (w : World) : World :=
  {| globals := globals w;
     index_docs := index_docs w;
     other_keys := other_keys w;
     clock_reads := clock_reads w + n;
     trace := trace w |}.

(** The chunks a file contributes to its batch: none when its type is
    unsupported or its text is empty or whitespace, and otherwise what the
    splitter makes of its text. It raises when reading, parsing or
    splitting does. *)
Definition file_chunks (ext : Externals) (file : UploadFile)
  : outcome (list str) :=
  match parser_for ext file with
  | None => Return []
  | Some parser =>
      obind (extracted_text parser file) (fun text =>
      if no_text text then Return [] else split_text ext text)
  end.

(** Whether a file counts as processed: its type is supported and its
    text is neither empty nor whitespace. *)
Definition has_text (ext : Externals) (file : UploadFile) : bool :=
  match parser_for ext file with
  | None => false
  | Some parser =>
      match extracted_text parser file with
      | Return text => negb (no_text text)
      | Raise _ => false
      end
  end.

Definition chunks_or_none (o : outcome (list str)) : list str :=
  match o with
  | Return chunks => chunks
  | Raise _ => []
  end.

(** The chunks of a batch, file after file. *)
Definition batch_chunks (ext : Externals) (files : list UploadFile)
  : list str :=
  flat_map (fun file => chunks_or_none (file_chunks ext file)) files.

(** Whether the type of a file is one of the supported ones. *)
Definition supported (ext : Externals) (file : UploadFile) : bool :=
  match parser_for ext file with
  | Some _ => true
  | None => false
  end.

(** [enumerate(l)], counting from [i]. *)
Fixpoint enumerate_from {A : Type} (i : nat) (l : list A) : list (nat * A) :=
  match l with
  | [] => []
  | x :: rest => (i, x) :: enumerate_from (S i) rest
  end.

(** The document made of the chunk at position [fst entry] of a file
    with [count] chunks, when the tagging of the file began at the clock
    reading [start]. *)
Definition tag_chunk (ext : Externals) (file_name file_type uploader : str)
    (count start : nat) (entry : nat * str) : LangChainDocument :=
  {| page_content := snd entry;
     metadata :=
       {| fileName := file_name;
          fileType := file_type;
          userId := uploader;
          chunkIndex := fst entry;
          totalChunks := count;
          category := lit "financial_literacy";
          uploadTimestamp := now_isoformat ext (start + fst entry) |} |}.

(** The documents of one file: each of its chunks with its own position,
    the chunk count, name and type of this file, and its own clock
    reading. *)
Definition tagged_file (ext : Externals) (uploader : str) (start : nat)
    (file : UploadFile) : list LangChainDocument :=
  let chunks := chunks_or_none (file_chunks ext file) in
  map (tag_chunk ext (filename file) (or_empty (content_type file)) uploader
         (List.length chunks) start)
    (enumerate_from 0 chunks).

(** The documents of a batch, file after file, the clock moving on by
    one reading per chunk. *)
Fixpoint tagged_batch (ext : Externals) (uploader : str) (start : nat)
    (files : list UploadFile) : list LangChainDocument :=
  match files with
  | [] => []
  | file :: rest =>
      tagged_file ext uploader start file
      ++ tagged_batch ext uploader
           (start + List.length (chunks_or_none (file_chunks ext file))) rest
  end.

(** The response of a successful ingestion. *)
Definition upload_response (processed chunks : nat) : UploadResponse :=
  {| upload_success := true;
     upload_message :=
       lit "Successfully processed " ++ Str.of_nat processed
       ++ lit " files into " ++ Str.of_nat chunks ++ lit " chunks.";
     documents_processed := processed;
     total_chunks_created := chunks |}.

Definition STORE_ERROR : exn :=
  HTTPException 500 (lit "Error adding documents to vector store.").

(** What a file adds to the count of processed documents. *)
Definition counted (ext : Externals) (file : UploadFile) : nat :=
  if has_text ext file then 1 else 0.

Definition NO_FILES : exn := HTTPException 400 (lit "No files provided").

Definition CLEAR_ERROR : exn :=
  HTTPException 500 (lit "Failed to clear documents.").

(** The database after a flush recorded in the trace. *)
Definition flushed (w : World) : World :=
  {| globals := globals w;
     index_docs := [];
     other_keys := [];
     clock_reads := clock_reads w;
     trace := trace w ++ [FlushDb] |}.

(* ===================================================================== *)
(** ** The admin portal's size formatter (src/admin_ui.py) *)
(* ===================================================================== *)

Module AdminUI.

(** [m * 2**e] as a float, rounded once to nearest, ties to even. *)
Definition scaled (m e : Z) : float :=
  SF2Prim (binary_normalize prec emax m e false).

(** [z.bit_length()] *)
Definition bit_length (z : Z) : Z :=
  if (z =? 0)%Z then 0%Z else (Z.log2 (Z.abs z) + 1)%Z.

(** [a / b] for two [int]s that a float holds exactly. *)
Definition true_divide_small (a b : Z) : float :=
  PrimFloat.div (scaled a 0) (scaled b 0).

(** [a / (k**i)] for [k = 1024]: the quotient by a power of two, rounded
    once; [OverflowError] when it is too large for a float. *)
Definition true_divide_power (a i : Z) : outcome float :=
  if ((2 ^ 1024 - 2 ^ 970) * 2 ^ (10 * i) <=? Z.abs a)%Z
  then Raise (Exception (lit "OverflowError"))
  else Return (scaled a (- (10 * i))).

(** [int(x)]: truncation toward zero; it raises on a float that is not
    finite. *)
Definition int_of_float (x : float) : outcome Z :=
  match PyFloat.to_Q x with
  | Some q => Return (Z.quot (Qnum q) (Z.pos (Qden q)))
  | None => Raise (Exception (lit "OverflowError"))
  end.

(** The nearest integer to a non-negative rational, ties to even. *)
Definition round_half_even (q : Q) : Z :=
  let n := Qnum q in
  let d := Z.pos (Qden q) in
  let floor := (n / d)%Z in
  match (2 * (n mod d) ?= d)%Z with
  | Lt => floor
  | Gt => (floor + 1)%Z
  | Eq => if Z.even floor then floor else (floor + 1)%Z
  end.

(** The digits of [format(x, ".2f")] for the magnitude [q] of [x]. *)
Definition fixed_2 (q : Q) : str :=
  let cents := round_half_even (Qmult q (inject_Z 100)) in
  Str.of_Z (cents / 100) ++ lit "."
  ++ Str.of_Z (cents mod 100 / 10) ++ Str.of_Z (cents mod 10).

Definition sign_of (negative : bool) : str :=
  if negative then lit "-" else [].

(** [f"{x:.2f}"] *)
Definition format_2f (x : float) : str :=
  match Prim2SF x with
  | S754_nan => lit "nan"
  | S754_infinity s => sign_of s ++ lit "inf"
  | S754_zero s => sign_of s ++ lit "0.00"
  | S754_finite s m e =>
      sign_of s ++ fixed_2 (Qmult (inject_Z (Z.pos m)) (Qpower 2 e))
  end.

Definition sizes : list str := [lit "Bytes"; lit "KB"; lit "MB"].

Definition format_file_size (bytes_size : Z) : outcome str :=
  if (bytes_size =? 0)%Z then Return (lit "0 Bytes")
  else
    obind (int_of_float (true_divide_small (bit_length bytes_size) 10))
      (fun tenths =>
    let i := Z.min (Z.of_nat (List.length sizes) - 1) tenths in
    obind (true_divide_power bytes_size i) (fun value =>
    Return (format_2f value ++ lit " " ++ nth (Z.to_nat i) sizes []))).

End AdminUI.

(* ===================================================================== *)
(** ** The chat window's typing effect (src/chatbot_ui.py) *)
(* ===================================================================== *)

Module ChatbotUI.

(** [s.split()], from the word read so far: the maximal runs of
    characters that are not whitespace. *)
Fixpoint split_from (word : str) (s : str) : list str :=
  match s with
  | [] => if is_empty word then [] else [word]
  | c :: rest =>
      if is_whitespace c then
        if is_empty word then split_from [] rest
        else word :: split_from [] rest
      else split_from (word ++ [c]) rest
  end.

Definition split (s : str) : list str := split_from [] s.

Definition SPACE : str := lit " ".

(** The cursor shown while the answer is typed, U+258C. *)
Definition CURSOR : str := [9612%N].

(** The loop of the typing effect: the text typed so far and the frames
    shown so far. *)
Fixpoint typing_loop (full_response : str) (frames : list str)
    (chunks : list str) : str * list str :=
  match chunks with
  | [] => (full_response, frames)
  | chunk :: rest =>
      let full_response := full_response ++ (chunk ++ SPACE) in
      typing_loop full_response (frames ++ [full_response ++ CURSOR]) rest
  end.

(** What the placeholder shows for an answer, frame after frame, the
    last one without the cursor. *)
Definition typing_effect (response_text : str) : list str :=
  let '(full_response, frames) := typing_loop [] [] (split response_text) in
  frames ++ [full_response].

End ChatbotUI.

(** A word: not empty, and without whitespace. *)
Definition is_word (s : str) : Prop :=
  s <> [] /\ forallb (fun c => negb (is_whitespace c)) s = true.

(* ===================================================================== *)
(** ** A concrete deployment, for running the model *)
(* ===================================================================== *)

Module Demo.

Definition chunk (text : string) : LangChainDocument :=
  {| page_content := lit text;
     metadata :=
       {| fileName := lit "budget.pdf";
          fileType := lit "application/pdf";
          userId := lit "admin";
          chunkIndex := 0;
          totalChunks := 1;
          category := lit "financial_literacy";
          uploadTimestamp := lit "2024-05-01T09:00:00" |} |}.

Definition empty_workbook : Workbook :=
  {| sheets := []; titles_distinct := eq_refl |}.


(** Collaborators that always answer: a PDF decodes to one page unless
    it has no bytes at all, the ranking is the order of the index, and
    the chat model always gives the same advice. *)
Definition ext : Externals :=
  {| PdfReader := fun contents =>
       match contents with
       | [] => Raise (Exception (lit "PdfReadError"))
       | _ :: _ => Return [Return (Some (lit "Save 20% of income"))]
       end;
     Document := fun _ => Return [lit " "];
     load_workbook := fun _ => Return empty_workbook;
     split_text := fun text => Return [text];
     now_isoformat := fun _ => lit "2024-05-01T09:00:00";
     similarity_ranking := fun w _ => Return (index_docs w);
     generate := fun _ _ => Return (lit "Save a fifth of your income.");
     add_documents_error := fun _ _ => None;
     flushdb_error := fun _ => None;
     check_index_schema := fun _ => Return (lit "schema") |}.

Definition up_vectorstore : RedisVectorStore :=
  {| vs_redis_url := REDIS_URL;
     vs_index_name := INDEX_NAME;
     schema := lit "schema" |}.

Definition up : Globals :=
  initialize
    (Return {| embedding_model := lit "nomic-embed-text" |})
    (Return {| llm_model := lit "phi3:mini" |})
    (fun _ => Return up_vectorstore)
    (Return {| client_url := REDIS_URL |})
    (Return {| chunk_size := 1000; chunk_overlap := 200 |}).

(** The globals after a start-up at which Redis could not be reached. *)
Definition down : Globals :=
  initialize
    (Return {| embedding_model := lit "nomic-embed-text" |})
    (Return {| llm_model := lit "phi3:mini" |})
    (fun _ => Raise (Exception (lit "ConnectionError")))
    (Return {| client_url := REDIS_URL |})
    (Return {| chunk_size := 1000; chunk_overlap := 200 |}).

Definition world (g : Globals) (docs : list LangChainDocument) : World :=
  {| globals := g;
     index_docs := docs;
     other_keys := [(lit "session:42", lit "alice")];
     clock_reads := 0;
     trace := [] |}.

Definition question : ChatRequest :=
  {| message := lit "How much should I save?";
     request_user_id := lit "alice" |}.

Definition four_chunks : list LangChainDocument :=
  [chunk "Save 20% of income"; chunk "Pay yourself first";
   chunk "Keep an emergency fund"; chunk "Avoid high-interest debt"].

(** The world after the question has been put over an index. *)
Definition after_chat (docs : list LangChainDocument) : World :=
  snd (chat ext question (world up docs)).

(** The answer over an index of four chunks, and over an empty one. *)
Definition grounded_answer : ChatResponse :=
  {| response := lit "Save a fifth of your income.";
     user_id := lit "alice";
     confidence_score := 1.0%float;
     suggest_ticket := false |}.

Definition ungrounded_answer : ChatResponse :=
  {| response := lit "Save a fifth of your income." ++ TICKET_NOTICE;
     user_id := lit "alice";
     confidence_score := 0.2%float;
     suggest_ticket := true |}.

Definition pdf (name : string) (contents : bytes) : UploadFile :=
  {| filename := lit name;
     content_type := Some (lit "application/pdf");
     read := Return contents |}.

Definition docx (name : string) : UploadFile :=
  {| filename := lit name;
     content_type := Some (lit "application/msword");
     read := Return [Byte.x50] |}.

Definition png (name : string) : UploadFile :=
  {| filename := lit name;
     content_type := Some (lit "image/png");
     read := Return [Byte.x89] |}.

(** A batch of three files, of which only the first has text. *)
Definition mixed_batch : list UploadFile :=
  [pdf "budget.pdf" [Byte.x25]; png "logo.png"; docx "blank.doc"].


(** An index of two chunks. *)
Definition two_chunks : list LangChainDocument :=
  [chunk "Save 20% of income"; chunk "Pay yourself first"].

End Demo.

(* ===================================================================== *)
(** ** Basic facts *)
(* ===================================================================== *)

Lemma str_eqb_eq (a b : str) : Str.eqb a b = true <-> a = b.
Proof.
  revert b. induction a as [|x a IH]; intros [|y b]; simpl;
    try (split; [discriminate | discriminate]); [tauto|].
  rewrite andb_true_iff, N.eqb_eq, IH.
  split; [intros [-> ->]; reflexivity | intros H; inversion H; auto].
Qed.

Lemma str_eqb_refl (a : str) : Str.eqb a a = true.
Proof. apply str_eqb_eq. reflexivity. Qed.

Lemma str_eqb_neq (a b : str) : Str.eqb a b = false <-> a <> b.
Proof.
  rewrite <- str_eqb_eq. destruct (Str.eqb a b); split;
    congruence || (intros H; exfalso; apply H; reflexivity).
Qed.

Lemma is_empty_true (s : str) : is_empty s = true <-> s = [].
Proof. destruct s; simpl; split; congruence. Qed.

(** A join is empty only for no part at all or for one empty part. *)
Lemma join_empty_iff (sep : str) (parts : list str) :
  sep <> [] ->
  join sep parts = [] <-> parts = [] \/ parts = [[]].
Proof.
  intros Hsep. destruct parts as [|x [|y rest]]; simpl.
  - tauto.
  - split; [intros ->; auto | intros [H|H]; congruence].
  - split.
    + intros H. apply app_eq_nil in H as [_ H].
      apply app_eq_nil in H as [H _]. contradiction.
    + intros [H|H]; discriminate.
Qed.

Lemma services_available_get (w : World) :
  services_available (globals w) <->
  exists s, get_services w = (Return s, w).
Proof.
  unfold services_available, get_services. split.
  - intros (vs & cm & rc & -> & -> & ->). eauto.
  - intros [s H].
    destruct (vectorstore (globals w)), (chat_model (globals w)),
      (redis_client (globals w)); try discriminate; eauto 6.
Qed.

Lemma services_unavailable_get (w : World) :
  services_unavailable (globals w) ->
  get_services w = (Raise SERVICE_UNAVAILABLE, w).
Proof.
  unfold services_unavailable, get_services.
  intros [H | [H | H]]; rewrite H;
    destruct (vectorstore (globals w)); try reflexivity;
    destruct (chat_model (globals w)); reflexivity.
Qed.

Lemma services_available_or_not (g : Globals) :
  services_available g \/ services_unavailable g.
Proof.
  unfold services_available, services_unavailable.
  destruct (vectorstore g), (chat_model g), (redis_client g); eauto 7.
Qed.

Lemma get_services_world (w : World) o w' :
  get_services w = (o, w') -> w' = w.
Proof.
  unfold get_services.
  destruct (vectorstore (globals w)), (chat_model (globals w)),
    (redis_client (globals w)); intros H; inversion H; reflexivity.
Qed.

(** A failed start-up leaves the services unavailable. *)
Lemma initialize_failure e c v r t :
  (forall s, obind e (fun em => obind c (fun cm => obind (v em) (fun vs =>
     obind r (fun rc => obind t (fun _ => Return (vs, cm, rc)))))) <> Return s) ->
  services_unavailable (initialize e c v r t).
Proof.
  intros H. unfold initialize.
  destruct (obind e _) as [[[vs cm] rc]|err] eqn:E.
  - exfalso. apply (H _ eq_refl).
  - left. reflexivity.
Qed.

(* ===================================================================== *)
(** ** The chat endpoint, step by step *)
(* ===================================================================== *)

(** The response built from the retrieved chunks and the generated
    text. *)
Lemma chat_steps ext request w :
  chat ext request w =
  match get_services w with
  | (Return (vs, cm, _), w0) =>
      match retriever_invoke ext vs 3 (message request) w0 with
      | (Return docs, w1) =>
          match chain_invoke ext cm (context_block docs) (message request) w1 with
          | (Return text, w2) =>
              (Return
                 {| response :=
                      if PrimFloat.ltb (confidence docs) 0.5
                      then text ++ TICKET_NOTICE else text;
                    user_id := request_user_id request;
                    confidence_score := confidence docs;
                    suggest_ticket := PrimFloat.ltb (confidence docs) 0.5 |},
               w2)
          | (Raise _, w2) => (Raise INTERNAL_ERROR, w2)
          end
      | (Raise _, w1) => (Raise INTERNAL_ERROR, w1)
      end
  | (Raise e, w0) => (Raise e, w0)
  end.
Proof.
  unfold chat, bind, try_except, ret, raise.
  destruct (get_services w) as [[[[vs cm] rc]|e] w0]; [|reflexivity].
  destruct (retriever_invoke ext vs 3 (message request) w0) as [[docs|e] w1];
    [|reflexivity].
  destruct (chain_invoke ext cm (context_block docs) (message request) w1)
    as [[text|e] w2]; reflexivity.
Qed.

(** The endpoint returns whenever its collaborators answer. *)
Lemma chat_run_returns ext request w docs text w' :
  chat_run ext request w docs text w' ->
  chat ext request w =
  (Return {| response :=
               if PrimFloat.ltb (confidence docs) 0.5
               then text ++ TICKET_NOTICE else text;
             user_id := request_user_id request;
             confidence_score := confidence docs;
             suggest_ticket := PrimFloat.ltb (confidence docs) 0.5 |}, w').
Proof.
  intros [vs cm rc d w1 t w2 Hs Hr Hg].
  rewrite chat_steps, Hs, Hr, Hg. reflexivity.
Qed.

(** And it returns in no other way. *)
Lemma chat_returns_run ext request w resp w' :
  chat ext request w = (Return resp, w') ->
  exists docs text,
    chat_run ext request w docs text w' /\
    resp = {| response :=
                if PrimFloat.ltb (confidence docs) 0.5
                then text ++ TICKET_NOTICE else text;
              user_id := request_user_id request;
              confidence_score := confidence docs;
              suggest_ticket := PrimFloat.ltb (confidence docs) 0.5 |}.
Proof.
  rewrite chat_steps.
  destruct (get_services w) as [[[[vs cm] rc]|e] w0] eqn:Hs; [|discriminate].
  pose proof (get_services_world _ _ _ Hs) as ->.
  destruct (retriever_invoke ext vs 3 (message request) w) as [[docs|e] w1]
    eqn:Hr; [|discriminate].
  destruct (chain_invoke ext cm (context_block docs) (message request) w1)
    as [[text|e] w2] eqn:Hg; [|discriminate].
  intros H. inversion H; subst. exists docs, text. split; [|reflexivity].
  econstructor; eassumption.
Qed.

(** At most three chunks are retrieved. *)
Lemma retrieved_at_most_3 ext vs query w docs w1 :
  retriever_invoke ext vs 3 query w = (Return docs, w1) ->
  List.length docs <= 3.
Proof.
  unfold retriever_invoke.
  destruct (similarity_ranking ext w query) as [ranked|e]; [|discriminate].
  intros H.
  assert (docs = firstn 3 ranked) as -> by congruence.
  apply firstn_le_length.
Qed.

Lemma chat_run_at_most_3 ext request w docs text w' :
  chat_run ext request w docs text w' -> List.length docs <= 3.
Proof.
  intros [vs cm rc d w1 t w2 _ Hr _]. eapply retrieved_at_most_3; eassumption.
Qed.

(** The code's score is the specification's formula of the count. *)
Lemma confidence_is_formula (docs : list LangChainDocument) :
  confidence docs = confidence_formula (List.length docs).
Proof. destruct docs; reflexivity. Qed.

(* ===================================================================== *)
(** ** The confidence score *)
(* ===================================================================== *)

Section Confidence.

Local Open Scope float_scope.

(** The four scores a retrieval of at most three chunks can give, as
    Python prints them. *)
Lemma confidence_values (docs : list LangChainDocument) :
  (List.length docs <= 3)%nat ->
  (List.length docs = 0%nat /\ confidence docs = 0.2) \/
  (List.length docs = 1%nat /\ confidence docs = 0.6666666666666666) \/
  (List.length docs = 2%nat /\ confidence docs = 0.8333333333333333) \/
  (List.length docs = 3%nat /\ confidence docs = 1.0).
Proof.
  destruct docs as [|a [|b [|c [|d rest]]]]; simpl List.length; intros H.
  - left. split; reflexivity.
  - right; left. split; [reflexivity | vm_compute; reflexivity].
  - right; right; left. split; [reflexivity | vm_compute; reflexivity].
  - right; right; right. split; [reflexivity | vm_compute; reflexivity].
  - lia.
Qed.

(** Each of them is the exact value of the formula up to rounding. *)
Lemma confidence_values_exact :
  PyFloat.approximates 0.2 (confidence_exact 0) /\
  PyFloat.approximates 0.6666666666666666 (confidence_exact 1) /\
  PyFloat.approximates 0.8333333333333333 (confidence_exact 2) /\
  PyFloat.approximates 1.0 (confidence_exact 3).
Proof.
  repeat split; (eexists; split; [vm_compute; reflexivity |]);
    vm_compute; discriminate.
Qed.

Lemma confidence_exact_values :
  confidence_exact 0 = (1 # 5)%Q /\
  Qeq (confidence_exact 1) (2 # 3) /\
  Qeq (confidence_exact 2) (5 # 6) /\
  Qeq (confidence_exact 3) 1.
Proof. repeat split. Qed.

(** Over the rationals the formula is non-decreasing in the count, for
    every count. *)
Lemma confidence_exact_grows (m n : nat) :
  (m <= n)%nat ->
  Qle ((1 # 2) + ((inject_Z (Z.of_nat m) / 3) * (1 # 2)))
      ((1 # 2) + ((inject_Z (Z.of_nat n) / 3) * (1 # 2))).
Proof.
  intros H.
  assert (Hq : Qle (inject_Z (Z.of_nat m)) (inject_Z (Z.of_nat n))).
  { rewrite <- Zle_Qle. apply Nat2Z.inj_le. exact H. }
  apply Qplus_le_r. apply Qmult_le_compat_r; [|discriminate].
  apply Qmult_le_compat_r; [exact Hq | discriminate].
Qed.

Lemma confidence_exact_monotone (m n : nat) :
  (m <= n)%nat -> Qle (confidence_exact m) (confidence_exact n).
Proof.
  intros H. unfold confidence_exact.
  destruct m as [|m], n as [|n]; simpl Nat.eqb; cbv iota.
  - apply Qle_refl.
  - apply Q.min_glb; [discriminate|].
    apply Qle_trans
      with ((1 # 2) + ((inject_Z (Z.of_nat 0) / 3) * (1 # 2)))%Q;
      [discriminate | apply confidence_exact_grows, Nat.le_0_l].
  - inversion H.
  - apply Q.min_le_compat_l. apply confidence_exact_grows. exact H.
Qed.

(** And so is the binary64 formula on the first thousand counts. *)
Lemma confidence_formula_monotone_to_1000 :
  forallb (fun n => PrimFloat.leb (confidence_formula n)
                                  (confidence_formula (S n)))
    (seq 0 1000) = true.
Proof. vm_compute. reflexivity. Qed.

End Confidence.

(** C1. For every chat query that is answered, the returned confidence
    score is 0.2 when zero chunks were retrieved and otherwise
    [min(1.0, 0.5 + (retrieved_count / 3.0) * 0.5)]; with zero retrieved
    chunks it is exactly 0.2 and [suggest_ticket] is true, with exactly
    three it is exactly 1.0 and [suggest_ticket] is false. *)
Theorem chat_confidence_score ext request w resp w' :
  chat ext request w = (Return resp, w') ->
  exists docs text,
    chat_run ext request w docs text w' /\
    (List.length docs = 0 -> confidence_score resp = 0.2%float) /\
    (List.length docs <> 0 ->
     confidence_score resp =
     PyFloat.min 1.0
       (0.5 + ((PyFloat.of_len (List.length docs) / 3.0) * 0.5))%float) /\
    (List.length docs = 0 ->
     confidence_score resp = 0.2%float /\ suggest_ticket resp = true) /\
    (List.length docs = 3 ->
     confidence_score resp = 1.0%float /\ suggest_ticket resp = false).
Proof.
  intros H. apply chat_returns_run in H as (docs & text & Hrun & ->).
  exists docs, text. simpl. split; [exact Hrun|].
  pose proof (chat_run_at_most_3 _ _ _ _ _ _ Hrun) as Hle.
  repeat split.
  - destruct docs; [reflexivity | discriminate].
  - destruct docs; [intros H; now elim H | reflexivity].
  - destruct docs; [reflexivity | discriminate].
  - destruct docs; [reflexivity | discriminate].
  - destruct (confidence_values docs Hle) as [[? E]|[[? E]|[[? E]|[? E]]]];
      (congruence || lia).
  - destruct (confidence_values docs Hle) as [[? E]|[[? E]|[[? E]|[? E]]]];
      try lia; rewrite E; reflexivity.
Qed.

Lemma chat_confidence_score_witness :
  exists docs text,
    chat_run Demo.ext Demo.question (Demo.world Demo.up Demo.four_chunks)
      docs text (Demo.after_chat Demo.four_chunks) /\
    (List.length docs = 3 ->
     confidence_score Demo.grounded_answer = 1.0%float /\
     suggest_ticket Demo.grounded_answer = false).
Proof.
  destruct (chat_confidence_score Demo.ext Demo.question
              (Demo.world Demo.up Demo.four_chunks) Demo.grounded_answer
              (Demo.after_chat Demo.four_chunks) eq_refl)
    as (docs & text & Hrun & _ & _ & _ & H3).
  exists docs, text. split; assumption.
Defined.

(** C3. The confidence score is a non-decreasing function of the number
    of retrieved chunks alone: of two answered queries, the one that
    retrieved no more chunks has no higher a score, and equal counts give
    equal scores whatever the chunks, their ranking or the generated text
    are; the score never exceeds 1.0, and it is the floor 0.2 exactly
    when zero chunks were retrieved. *)
Theorem confidence_monotone_in_count
    ext1 request1 w1 resp1 w1' ext2 request2 w2 resp2 w2' :
  chat ext1 request1 w1 = (Return resp1, w1') ->
  chat ext2 request2 w2 = (Return resp2, w2') ->
  exists docs1 text1 docs2 text2,
    chat_run ext1 request1 w1 docs1 text1 w1' /\
    chat_run ext2 request2 w2 docs2 text2 w2' /\
    (List.length docs1 <= List.length docs2 ->
     PrimFloat.leb (confidence_score resp1) (confidence_score resp2) = true) /\
    (List.length docs1 = List.length docs2 ->
     confidence_score resp1 = confidence_score resp2) /\
    PrimFloat.leb (confidence_score resp1) 1.0%float = true /\
    (confidence_score resp1 = 0.2%float <-> List.length docs1 = 0).
Proof.
  intros H1 H2.
  apply chat_returns_run in H1 as (docs1 & text1 & Hrun1 & ->).
  apply chat_returns_run in H2 as (docs2 & text2 & Hrun2 & ->).
  exists docs1, text1, docs2, text2. simpl.
  split; [exact Hrun1|]. split; [exact Hrun2|].
  pose proof (chat_run_at_most_3 _ _ _ _ _ _ Hrun1) as Hle1.
  pose proof (chat_run_at_most_3 _ _ _ _ _ _ Hrun2) as Hle2.
  destruct (confidence_values docs1 Hle1) as [[L1 E1]|[[L1 E1]|[[L1 E1]|[L1 E1]]]];
    destruct (confidence_values docs2 Hle2) as [[L2 E2]|[[L2 E2]|[[L2 E2]|[L2 E2]]]];
    rewrite E1, E2, L1, L2;
    (split; [intros; (reflexivity || lia) |]);
    (split; [intros; (reflexivity || lia) |]);
    (split; [reflexivity |]);
    (split; [intros H; (reflexivity || (vm_compute in H; discriminate H))
            | intros H; (reflexivity || discriminate H)]).
Qed.

Lemma confidence_monotone_in_count_witness :
  exists docs1 text1 docs2 text2,
    chat_run Demo.ext Demo.question (Demo.world Demo.up [])
      docs1 text1 (Demo.after_chat []) /\
    chat_run Demo.ext Demo.question (Demo.world Demo.up Demo.four_chunks)
      docs2 text2 (Demo.after_chat Demo.four_chunks) /\
    (List.length docs1 <= List.length docs2 ->
     PrimFloat.leb (confidence_score Demo.ungrounded_answer)
       (confidence_score Demo.grounded_answer) = true).
Proof.
  destruct (confidence_monotone_in_count
              Demo.ext Demo.question (Demo.world Demo.up [])
              Demo.ungrounded_answer (Demo.after_chat [])
              Demo.ext Demo.question (Demo.world Demo.up Demo.four_chunks)
              Demo.grounded_answer (Demo.after_chat Demo.four_chunks)
              eq_refl eq_refl)
    as (docs1 & text1 & docs2 & text2 & Hrun1 & Hrun2 & Hmono & _).
  exists docs1, text1, docs2, text2. repeat split; assumption.
Defined.

(** C4. For every chat query that is answered, [suggest_ticket] is set
    exactly when the confidence is below 0.5; when it is set the fixed
    escalation notice is appended to the generated text, and when it is
    not the generated text is returned as it is. *)
Theorem chat_suggest_ticket ext request w resp w' :
  chat ext request w = (Return resp, w') ->
  exists docs text,
    chat_run ext request w docs text w' /\
    suggest_ticket resp = PrimFloat.ltb (confidence_score resp) 0.5%float /\
    (suggest_ticket resp = true -> response resp = text ++ TICKET_NOTICE) /\
    (suggest_ticket resp = false -> response resp = text).
Proof.
  intros H. apply chat_returns_run in H as (docs & text & Hrun & ->).
  exists docs, text. simpl. split; [exact Hrun|]. split; [reflexivity|].
  split; intros ->; reflexivity.
Qed.

Lemma chat_suggest_ticket_witness :
  exists docs text,
    chat_run Demo.ext Demo.question (Demo.world Demo.up [])
      docs text (Demo.after_chat []) /\
    (suggest_ticket Demo.ungrounded_answer = true ->
     response Demo.ungrounded_answer = text ++ TICKET_NOTICE).
Proof.
  destruct (chat_suggest_ticket Demo.ext Demo.question
              (Demo.world Demo.up []) Demo.ungrounded_answer
              (Demo.after_chat []) eq_refl)
    as (docs & text & Hrun & _ & Hyes & _).
  exists docs, text. split; assumption.
Defined.

(** C10, as the code has it. For every chat query that is answered, the
    confidence score is one of exactly four binary64 values, 0.2,
    0.6666666666666666, 0.8333333333333333 or 1.0, for 0, 1, 2 or 3
    retrieved chunks: the values 1/5, 2/3, 5/6 and 1 of the formula, each
    within [2^-53] of it. Consequently [suggest_ticket] is true if and
    only if zero chunks were retrieved, and the score is never at least
    0.5 and below the binary64 number 2/3 under the comparisons of
    floats. *)
Theorem chat_confidence_four_values ext request w resp w' :
  chat ext request w = (Return resp, w') ->
  exists docs text,
    chat_run ext request w docs text w' /\
    ((List.length docs = 0 /\
      confidence_score resp = 0.2%float /\
      Qeq (confidence_exact 0) (1 # 5)) \/
     (List.length docs = 1 /\
      confidence_score resp = 0.6666666666666666%float /\
      Qeq (confidence_exact 1) (2 # 3)) \/
     (List.length docs = 2 /\
      confidence_score resp = 0.8333333333333333%float /\
      Qeq (confidence_exact 2) (5 # 6)) \/
     (List.length docs = 3 /\
      confidence_score resp = 1.0%float /\
      Qeq (confidence_exact 3) 1)) /\
    PyFloat.approximates (confidence_score resp)
      (confidence_exact (List.length docs)) /\
    (suggest_ticket resp = true <-> List.length docs = 0) /\
    ~ (PrimFloat.leb 0.5%float (confidence_score resp) = true /\
       PrimFloat.ltb (confidence_score resp) (2 / 3)%float = true).
Proof.
  intros H. apply chat_returns_run in H as (docs & text & Hrun & ->).
  exists docs, text. simpl. split; [exact Hrun|].
  pose proof (chat_run_at_most_3 _ _ _ _ _ _ Hrun) as Hle.
  destruct confidence_values_exact as (A0 & A1 & A2 & A3).
  destruct (confidence_values docs Hle) as [[L E]|[[L E]|[[L E]|[L E]]]];
    rewrite E, L.
  - split; [left; repeat split|]. split; [exact A0|].
    split; [split; reflexivity|]. intros [H _]. vm_compute in H. discriminate H.
  - split; [right; left; repeat split|]. split; [exact A1|].
    split; [split; intros H; discriminate H|].
    intros [_ H]. vm_compute in H. discriminate H.
  - split; [right; right; left; repeat split|]. split; [exact A2|].
    split; [split; intros H; discriminate H|].
    intros [_ H]. vm_compute in H. discriminate H.
  - split; [right; right; right; repeat split|]. split; [exact A3|].
    split; [split; intros H; discriminate H|].
    intros [_ H]. vm_compute in H. discriminate H.
Qed.

Lemma chat_confidence_four_values_witness :
  exists docs text,
    chat_run Demo.ext Demo.question (Demo.world Demo.up Demo.four_chunks)
      docs text (Demo.after_chat Demo.four_chunks) /\
    (suggest_ticket Demo.grounded_answer = true <-> List.length docs = 0).
Proof.
  destruct (chat_confidence_four_values Demo.ext Demo.question
              (Demo.world Demo.up Demo.four_chunks) Demo.grounded_answer
              (Demo.after_chat Demo.four_chunks) eq_refl)
    as (docs & text & Hrun & _ & _ & Hiff & _).
  exists docs, text. split; assumption.
Defined.

(** C10 as stated fails on a retrieval of two chunks: the score is
    0.8333333333333333, which is none of the four numbers 0.2, 2/3, 5/6
    and 1.0 as binary64 numbers (5/6 is 0.8333333333333334). And read as
    exact numbers, the one-chunk score 0.6666666666666666 lies in the
    interval from 1/2 to 2/3. *)
Lemma two_chunk_score_is_not_five_sixths :
  exists docs text resp,
    chat_run Demo.ext Demo.question (Demo.world Demo.up Demo.two_chunks)
      docs text (Demo.after_chat Demo.two_chunks) /\
    List.length docs = 2 /\
    chat Demo.ext Demo.question (Demo.world Demo.up Demo.two_chunks)
    = (Return resp, Demo.after_chat Demo.two_chunks) /\
    confidence_score resp = 0.8333333333333333%float /\
    confidence_score resp <> 0.2%float /\
    confidence_score resp <> (2 / 3)%float /\
    confidence_score resp <> (5 / 6)%float /\
    confidence_score resp <> 1.0%float /\
    exists v,
      PyFloat.to_Q 0.6666666666666666%float = Some v /\
      Qle (1 # 2) v /\ Qlt v (2 # 3).
Proof.
  exists Demo.two_chunks, (lit "Save a fifth of your income.").
  eexists. split; [eapply ChatRun; reflexivity|].
  split; [reflexivity|]. split; [reflexivity|]. cbn [confidence_score].
  split; [reflexivity|].
  repeat split.
  - intros H. apply (f_equal Prim2SF) in H. vm_compute in H. discriminate H.
  - intros H. apply (f_equal Prim2SF) in H. vm_compute in H. discriminate H.
  - intros H. apply (f_equal Prim2SF) in H. vm_compute in H. discriminate H.
  - intros H. apply (f_equal Prim2SF) in H. vm_compute in H. discriminate H.
  - eexists. split; [vm_compute; reflexivity|].
    split; vm_compute; [discriminate | reflexivity].
Qed.

(* ===================================================================== *)
(** ** The context block of the prompt *)
(* ===================================================================== *)

Lemma CONTEXT_SEPARATOR_not_empty : CONTEXT_SEPARATOR <> [].
Proof. discriminate. Qed.

(** The joined texts are empty only for no chunk or one empty chunk. *)
Lemma joined_texts_empty (docs : list LangChainDocument) :
  join CONTEXT_SEPARATOR (map page_content docs) = [] <->
  docs = [] \/ exists d, docs = [d] /\ page_content d = [].
Proof.
  rewrite (join_empty_iff _ _ CONTEXT_SEPARATOR_not_empty). split.
  - intros [H|H].
    + left. destruct docs; [reflexivity | discriminate].
    + right. destruct docs as [|d [|d' rest]]; try discriminate.
      exists d. split; [reflexivity | injection H as H; exact H].
  - intros [->|[d [-> H]]]; [left; reflexivity | right; simpl; rewrite H; reflexivity].
Qed.

(** C5, as the code has it. For every chat query whose retrieval
    returns, the prompt sent to the chat model carries one context block:
    the retrieved chunks' texts joined with the fixed separator when that
    join is not empty, and the fixed placeholder when it is empty, which
    is exactly when no chunk was retrieved or the only retrieved chunk has
    an empty text. *)
Theorem chat_context_block ext request w vs cm rc docs w1 :
  get_services w = (Return (vs, cm, rc), w) ->
  retriever_invoke ext vs 3 (message request) w = (Return docs, w1) ->
  exists context,
    trace (snd (chat ext request w)) =
      trace w ++ [SimilaritySearch (message request) 3;
                  ModelInvoke (render_prompt context (message request))] /\
    (join CONTEXT_SEPARATOR (map page_content docs) <> [] ->
     context = join CONTEXT_SEPARATOR (map page_content docs)) /\
    (join CONTEXT_SEPARATOR (map page_content docs) = [] ->
     context = NO_CONTEXT) /\
    (join CONTEXT_SEPARATOR (map page_content docs) = [] <->
     docs = [] \/ exists d, docs = [d] /\ page_content d = []).
Proof.
  intros Hs Hr. exists (context_block docs). split; [|split; [|split]].
  - rewrite chat_steps, Hs, Hr.
    assert (Hw1 : trace w1 = trace w ++ [SimilaritySearch (message request) 3]).
    { unfold retriever_invoke in Hr.
      destruct (similarity_ranking ext w (message request));
        injection Hr as _ <-; reflexivity. }
    unfold chain_invoke.
    destruct (generate ext w1 _); simpl; rewrite Hw1, <- app_assoc; reflexivity.
  - intros H. unfold context_block.
    destruct (join CONTEXT_SEPARATOR (map page_content docs));
      [now elim H | reflexivity].
  - intros H. unfold context_block. rewrite H. reflexivity.
  - apply joined_texts_empty.
Qed.

Lemma chat_context_block_witness :
  exists context,
    trace (Demo.after_chat Demo.four_chunks) =
      [SimilaritySearch (message Demo.question) 3;
       ModelInvoke (render_prompt context (message Demo.question))] /\
    context =
      join CONTEXT_SEPARATOR
        [lit "Save 20% of income"; lit "Pay yourself first";
         lit "Keep an emergency fund"].
Proof.
  destruct (chat_context_block Demo.ext Demo.question
              (Demo.world Demo.up Demo.four_chunks) _ _ _ _ _
              eq_refl eq_refl)
    as (context & Htrace & Hjoin & _).
  exists context. split; [exact Htrace|].
  apply Hjoin. discriminate.
Defined.

(** C5 as stated fails on a retrieval of one chunk whose text is empty:
    a chunk was retrieved, and yet the prompt carries the placeholder,
    which is not the join of the retrieved texts. *)
Lemma placeholder_with_one_retrieved_chunk :
  exists docs text,
    chat_run Demo.ext Demo.question (Demo.world Demo.up [Demo.chunk ""])
      docs text (Demo.after_chat [Demo.chunk ""]) /\
    List.length docs = 1 /\
    trace (Demo.after_chat [Demo.chunk ""]) =
      [SimilaritySearch (message Demo.question) 3;
       ModelInvoke (render_prompt NO_CONTEXT (message Demo.question))] /\
    join CONTEXT_SEPARATOR (map page_content docs) <> NO_CONTEXT.
Proof.
  exists [Demo.chunk ""], (lit "Save a fifth of your income.").
  split; [|split; [reflexivity | split; [reflexivity | discriminate]]].
  eapply ChatRun; reflexivity.
Qed.

(* ===================================================================== *)
(** ** The dependency check *)
(* ===================================================================== *)

Lemma get_services_bind_unavailable {A} (k : Services -> M A) w :
  services_unavailable (globals w) ->
  bind get_services k w = (Raise SERVICE_UNAVAILABLE, w).
Proof.
  intros H. unfold bind. rewrite (services_unavailable_get w H). reflexivity.
Qed.

(** C6, as the code has it. When the clients failed to initialize, the
    chat, upload and clear-all endpoints fail with HTTP 503 for every
    request, before anything else happens; the health endpoint does not
    depend on the services and still answers "healthy". *)
Theorem unavailable_services_fail_fast ext w :
  services_unavailable (globals w) ->
  (forall request, chat ext request w = (Raise SERVICE_UNAVAILABLE, w)) /\
  (forall files uploader,
     upload_multiple_documents ext files uploader w
     = (Raise SERVICE_UNAVAILABLE, w)) /\
  (forall admin_key,
     clear_all_documents ext admin_key w = (Raise SERVICE_UNAVAILABLE, w)) /\
  exists w',
    health_check ext w =
    (Return {| status := lit "healthy";
               service := lit "Financial Literacy Chatbot";
               timestamp := now_isoformat ext (clock_reads w) |}, w').
Proof.
  intros H. repeat split.
  - intros request. apply get_services_bind_unavailable, H.
  - intros files uploader. apply get_services_bind_unavailable, H.
  - intros admin_key. apply get_services_bind_unavailable, H.
  - eexists. reflexivity.
Qed.

Lemma unavailable_services_fail_fast_witness :
  chat Demo.ext Demo.question (Demo.world Demo.down Demo.four_chunks)
  = (Raise SERVICE_UNAVAILABLE, Demo.world Demo.down Demo.four_chunks).
Proof.
  apply (unavailable_services_fail_fast Demo.ext
           (Demo.world Demo.down Demo.four_chunks)).
  left. reflexivity.
Defined.

(** C6 as stated fails on the health endpoint: after a failed start-up it
    returns a response, not HTTP 503. *)
Lemma health_check_without_services :
  services_unavailable (globals (Demo.world Demo.down [])) /\
  fst (health_check Demo.ext (Demo.world Demo.down [])) =
  Return {| status := lit "healthy";
            service := lit "Financial Literacy Chatbot";
            timestamp := lit "2024-05-01T09:00:00" |}.
Proof. split; [left; reflexivity | reflexivity]. Qed.

(* ===================================================================== *)
(** ** Clearing the index *)
(* ===================================================================== *)

(** C7, as the code has it. A call to clear-all with a key other than
    the hardcoded one never has a side effect; it is refused with HTTP
    403 when the services are available, and with HTTP 503 by the
    dependency check, which runs first, when they are not. *)
Theorem clear_all_wrong_key ext admin_key w :
  admin_key <> ADMIN_KEY ->
  (services_available (globals w) ->
   clear_all_documents ext admin_key w
   = (Raise (HTTPException 403 (lit "Unauthorized")), w)) /\
  (services_unavailable (globals w) ->
   clear_all_documents ext admin_key w = (Raise SERVICE_UNAVAILABLE, w)) /\
  snd (clear_all_documents ext admin_key w) = w.
Proof.
  intros Hkey. apply str_eqb_neq in Hkey.
  assert (Hup : services_available (globals w) ->
                clear_all_documents ext admin_key w
                = (Raise (HTTPException 403 (lit "Unauthorized")), w)).
  { intros Hav. apply services_available_get in Hav as [[[vs cm] rc] Hs].
    unfold clear_all_documents, bind. rewrite Hs, Hkey. reflexivity. }
  assert (Hdown : services_unavailable (globals w) ->
                  clear_all_documents ext admin_key w
                  = (Raise SERVICE_UNAVAILABLE, w)).
  { intros Hun. apply get_services_bind_unavailable, Hun. }
  split; [exact Hup|]. split; [exact Hdown|].
  destruct (services_available_or_not (globals w)) as [Hav|Hun].
  - rewrite (Hup Hav). reflexivity.
  - rewrite (Hdown Hun). reflexivity.
Qed.

Lemma clear_all_wrong_key_witness :
  snd (clear_all_documents Demo.ext (lit "admin124")
         (Demo.world Demo.up Demo.four_chunks))
  = Demo.world Demo.up Demo.four_chunks.
Proof.
  apply (clear_all_wrong_key Demo.ext (lit "admin124")
           (Demo.world Demo.up Demo.four_chunks)).
  discriminate.
Defined.

(** C7 as stated fails when the services are unavailable: the call with
    a wrong key is refused with HTTP 503, not 403. *)
Lemma clear_all_wrong_key_without_services :
  lit "admin124" <> ADMIN_KEY /\
  fst (clear_all_documents Demo.ext (lit "admin124")
         (Demo.world Demo.down Demo.four_chunks))
  = Raise (HTTPException 503
             (lit "Core services (Ollama/Redis) are not available.")).
Proof. split; [discriminate | reflexivity]. Qed.

(* ===================================================================== *)
(** ** The ingestion loop *)
(* ===================================================================== *)

Section Ingestion.

Variable ext : Externals.
Variable uploader : str.

Lemma same_store_refl w : same_store w w.
Proof. repeat split. Qed.

Lemma same_store_trans w1 w2 w3 :
  same_store w1 w2 -> same_store w2 w3 -> same_store w1 w3.
Proof.
  intros (A1 & A2 & A3 & A4) (B1 & B2 & B3 & B4).
  repeat split; congruence.
Qed.

(** Tagging the chunks always returns, and only reads the clock. *)
Lemma tag_chunks_returns file_name file_type count chunks :
  forall i docs w,
  exists docs' w',
    tag_chunks ext file_name file_type uploader count i chunks docs w
    = (Return docs', w') /\ same_store w w'.
Proof.
  induction chunks as [|chunk rest IH]; intros i docs w; simpl.
  - exists docs, w. split; [reflexivity | apply same_store_refl].
  - unfold bind at 1. simpl.
    match goal with
    | |- context [tag_chunks _ _ _ _ _ ?j rest ?d ?v] =>
        destruct (IH j d v) as (docs' & w' & -> & Hs)
    end.
    exists docs', w'. split; [reflexivity|].
    eapply same_store_trans; [|exact Hs]. repeat split.
Qed.

Lemma process_file_frame parser file t w o w' :
  process_file ext parser file uploader t w = (o, w') -> same_store w w'.
Proof.
  unfold process_file, bind, lift, ret.
  destruct (read file) as [contents|e];
    [|intros H; inversion H; apply same_store_refl].
  destruct (parser contents) as [text|e];
    [|intros H; inversion H; apply same_store_refl].
  destruct (no_text text); [intros H; inversion H; apply same_store_refl|].
  destruct (split_text ext text) as [chunks|e];
    [|intros H; inversion H; apply same_store_refl].
  destruct (tag_chunks_returns (filename file) (or_empty (content_type file))
              (List.length chunks) chunks 0 (all_langchain_docs t) w)
    as (docs' & w1 & -> & Hs).
  intros H. inversion H; subst. exact Hs.
Qed.

(** The loop over the files writes nothing and calls no collaborator. *)
Lemma upload_loop_frame files :
  forall t w o w',
    upload_loop ext files uploader t w = (o, w') -> same_store w w'.
Proof.
  induction files as [|file rest IH]; intros t w o w'; simpl.
  - intros H. inversion H. apply same_store_refl.
  - destruct (parser_for ext file) as [parser|]; [|apply IH].
    unfold bind, try_except, raise.
    destruct (process_file ext parser file uploader t w) as [[t'|e] w1] eqn:Hp.
    + intros H. eapply same_store_trans;
        [eapply process_file_frame; exact Hp | eapply IH; exact H].
    + intros H. inversion H; subst. eapply process_file_frame; exact Hp.
Qed.

(** A file whose parser raises makes its iteration raise. *)
Lemma process_file_raises parser file contents e t w :
  read file = Return contents ->
  parser contents = Raise e ->
  process_file ext parser file uploader t w = (Raise e, w).
Proof.
  intros Hr Hp. unfold process_file, bind, lift. rewrite Hr, Hp. reflexivity.
Qed.

(** With a file that raises on parsing in it, the loop raises HTTP 500
    for one of its files. *)
Lemma upload_loop_raises files bad :
  In bad files -> raises_on_parse ext bad ->
  forall t w,
  exists file w',
    In file files /\
    upload_loop ext files uploader t w = (Raise (processing_error file), w').
Proof.
  intros Hin (parser & contents & e & Hpf & Hread & Hparse).
  induction files as [|file rest IH]; [contradiction|].
  intros t w. simpl.
  destruct (parser_for ext file) as [p|] eqn:Hp.
  - unfold bind, try_except, raise.
    destruct (process_file ext p file uploader t w) as [[t'|e'] w1] eqn:Hproc.
    + destruct Hin as [->|Hin].
      * rewrite Hpf in Hp. injection Hp as <-.
        rewrite (process_file_raises _ _ _ _ t w Hread Hparse) in Hproc.
        discriminate.
      * destruct (IH Hin t' w1) as (f & w' & Hf & ->).
        exists f, w'. split; [right; exact Hf | reflexivity].
    + exists file, w1. split; [left; reflexivity | reflexivity].
  - destruct Hin as [->|Hin]; [congruence|].
    destruct (IH Hin t w) as (f & w' & Hf & ->).
    exists f, w'. split; [right; exact Hf | reflexivity].
Qed.

(** A file that is not valid leaves the tally and the world as they are,
    or raises. *)
Lemma process_file_not_valid parser file t w :
  parser_for ext file = Some parser ->
  ~ valid_file ext file ->
  process_file ext parser file uploader t w = (Return t, w) \/
  exists e, process_file ext parser file uploader t w = (Raise e, w).
Proof.
  intros Hpf Hnot. unfold process_file, bind, lift, ret.
  destruct (read file) as [contents|e] eqn:Hread; [|right; eauto].
  destruct (parser contents) as [text|e] eqn:Hparse; [|right; eauto].
  destruct (no_text text) eqn:Hno; [left; reflexivity|].
  exfalso. apply Hnot. exists parser, text.
  unfold extracted_text. rewrite Hread. simpl. auto.
Qed.

Lemma upload_loop_no_valid files :
  (forall file, In file files -> ~ valid_file ext file) ->
  forall t w,
    upload_loop ext files uploader t w = (Return t, w) \/
    exists e, upload_loop ext files uploader t w = (Raise e, w).
Proof.
  induction files as [|file rest IH]; intros Hnone t w; simpl.
  - left. reflexivity.
  - assert (Hrest : forall f, In f rest -> ~ valid_file ext f)
      by (intros f Hf; apply Hnone; right; exact Hf).
    destruct (parser_for ext file) as [parser|] eqn:Hpf; [|apply IH, Hrest].
    unfold bind, try_except, raise.
    destruct (process_file_not_valid parser file t w Hpf
                (Hnone file (or_introl eq_refl))) as [->|[e ->]].
    + apply IH, Hrest.
    + right. eauto.
Qed.

Lemma upload_loop_all_skipped files :
  (forall file, In file files -> skipped_file ext file) ->
  forall t w, upload_loop ext files uploader t w = (Return t, w).
Proof.
  induction files as [|file rest IH]; intros Hall t w; simpl.
  - reflexivity.
  - assert (Hrest : forall f, In f rest -> skipped_file ext f)
      by (intros f Hf; apply Hall; right; exact Hf).
    destruct (Hall file (or_introl eq_refl))
      as [Hpf | (parser & text & Hpf & Htext & Hno)]; rewrite Hpf.
    + apply IH, Hrest.
    + unfold bind, try_except.
      assert (process_file ext parser file uploader t w = (Return t, w)) as ->.
      { unfold extracted_text in Htext. unfold process_file, bind, lift, ret.
        destruct (read file) as [contents|e]; [|discriminate].
        simpl in Htext. rewrite Htext, Hno. reflexivity. }
      apply IH, Hrest.
Qed.

End Ingestion.

(* ===================================================================== *)
(** ** The ingestion endpoint *)
(* ===================================================================== *)

(** The endpoint on a batch with at least one file, once the services
    are there. *)
Lemma upload_steps ext files uploader w vs cm rc :
  get_services w = (Return (vs, cm, rc), w) ->
  files <> [] ->
  upload_multiple_documents ext files uploader w =
  match upload_loop ext files uploader
          {| total_chunks := 0; docs_processed := 0;
             all_langchain_docs := [] |} w with
  | (Raise e, w1) => (Raise e, w1)
  | (Return t, w1) =>
      let answer :=
        {| upload_success := true;
           upload_message :=
             lit "Successfully processed "
             ++ Str.of_nat (docs_processed t)
             ++ lit " files into "
             ++ Str.of_nat (total_chunks t) ++ lit " chunks.";
           documents_processed := docs_processed t;
           total_chunks_created := total_chunks t |} in
      match all_langchain_docs t with
      | [] => (Return answer, w1)
      | (_ :: _) as docs =>
          match add_documents ext vs docs w1 with
          | (Return _, w2) => (Return answer, w2)
          | (Raise _, w2) =>
              (Raise (HTTPException 500
                        (lit "Error adding documents to vector store.")), w2)
          end
      end
  end.
Proof.
  intros Hs Hne. unfold upload_multiple_documents, bind at 1. rewrite Hs.
  destruct files as [|file rest]; [now elim Hne|].
  unfold bind, try_except, raise, ret.
  destruct (upload_loop ext (file :: rest) uploader _ w) as [[t|e] w1];
    [|reflexivity].
  destruct (all_langchain_docs t) as [|d ds]; [reflexivity|].
  destruct (add_documents ext vs (d :: ds) w1) as [[[]|e] w2]; reflexivity.
Qed.

(** C2. If any file of an upload batch raises a parse exception, the
    whole ingestion request fails, with HTTP 500 for a file of the batch
    when the services are available, and nothing of the batch is written:
    the index and the database are as before and no call was made to the
    vector store, whatever files were processed before the failing one. *)
Theorem upload_parse_exception_fails_batch ext files uploader w bad :
  In bad files ->
  raises_on_parse ext bad ->
  exists e w',
    upload_multiple_documents ext files uploader w = (Raise e, w') /\
    index_docs w' = index_docs w /\
    other_keys w' = other_keys w /\
    trace w' = trace w /\
    (services_available (globals w) ->
     exists file, In file files /\ e = processing_error file).
Proof.
  intros Hin Hbad.
  destruct (services_available_or_not (globals w)) as [Hav|Hun].
  - pose proof Hav as Hav'.
    apply services_available_get in Hav' as [[[vs cm] rc] Hs].
    assert (Hne : files <> []) by (intros ->; contradiction).
    rewrite (upload_steps ext files uploader w vs cm rc Hs Hne).
    destruct (upload_loop_raises ext uploader files bad Hin Hbad
                {| total_chunks := 0; docs_processed := 0;
                   all_langchain_docs := [] |} w)
      as (file & w' & Hfile & Hloop).
    rewrite Hloop.
    destruct (upload_loop_frame ext uploader files _ _ _ _ Hloop)
      as (_ & Hi & Hk & Ht).
    exists (processing_error file), w'. repeat split; eauto.
  - exists SERVICE_UNAVAILABLE, w.
    split; [apply get_services_bind_unavailable, Hun|].
    repeat split.
    intros (vs & cm & rc & Hv & Hc & Hr).
    destruct Hun as [H|[H|H]]; congruence.
Qed.

Lemma upload_parse_exception_fails_batch_witness :
  exists e w',
    upload_multiple_documents Demo.ext
      [Demo.pdf "budget.pdf" [Byte.x25]; Demo.pdf "corrupt.pdf" []]
      (lit "admin") (Demo.world Demo.up Demo.four_chunks) = (Raise e, w') /\
    index_docs w' = Demo.four_chunks /\
    trace w' = [].
Proof.
  destruct (upload_parse_exception_fails_batch Demo.ext
              [Demo.pdf "budget.pdf" [Byte.x25]; Demo.pdf "corrupt.pdf" []]
              (lit "admin") (Demo.world Demo.up Demo.four_chunks)
              (Demo.pdf "corrupt.pdf" []))
    as (e & w' & Hfail & Hindex & _ & Htrace & _).
  - right; left; reflexivity.
  - exists (parse_pdf Demo.ext), [], (Exception (lit "PdfReadError")).
    repeat split.
  - exists e, w'. repeat split; assumption.
Defined.

(** C8, as the code has it. For a non-empty batch with zero valid files
    (no file is both of a supported MIME type and yields text that is not
    whitespace) the ingestion call changes nothing in the world, so it
    makes no vector-store write call; and when the services are available
    and every file is of an unsupported type or is read and parsed into
    empty or whitespace-only text, it returns [documents_processed = 0]
    and [total_chunks_created = 0]. *)
Theorem upload_zero_valid_files ext files uploader w :
  files <> [] ->
  (forall file, In file files -> ~ valid_file ext file) ->
  snd (upload_multiple_documents ext files uploader w) = w /\
  (services_available (globals w) ->
   (forall file, In file files -> skipped_file ext file) ->
   upload_multiple_documents ext files uploader w
   = (Return NOTHING_PROCESSED, w)).
Proof.
  intros Hne Hnone. split.
  - destruct (services_available_or_not (globals w)) as [Hav|Hun].
    + apply services_available_get in Hav as [[[vs cm] rc] Hs].
      rewrite (upload_steps ext files uploader w vs cm rc Hs Hne).
      destruct (upload_loop_no_valid ext uploader files Hnone
                  {| total_chunks := 0; docs_processed := 0;
                     all_langchain_docs := [] |} w) as [->|[e ->]];
        reflexivity.
    + unfold upload_multiple_documents.
      rewrite get_services_bind_unavailable by exact Hun. reflexivity.
  - intros Hav Hall.
    apply services_available_get in Hav as [[[vs cm] rc] Hs].
    rewrite (upload_steps ext files uploader w vs cm rc Hs Hne).
    rewrite (upload_loop_all_skipped ext uploader files Hall).
    reflexivity.
Qed.

Lemma upload_zero_valid_files_witness :
  upload_multiple_documents Demo.ext
    [Demo.png "logo.png"; Demo.docx "blank.doc"]
    (lit "admin") (Demo.world Demo.up Demo.four_chunks)
  = (Return NOTHING_PROCESSED, Demo.world Demo.up Demo.four_chunks).
Proof.
  apply (upload_zero_valid_files Demo.ext
           [Demo.png "logo.png"; Demo.docx "blank.doc"]
           (lit "admin") (Demo.world Demo.up Demo.four_chunks)).
  - discriminate.
  - intros file [<-|[<-|[]]].
    + intros (parser & text & Hpf & _). discriminate Hpf.
    + intros (parser & text & Hpf & Htext & Hno).
      injection Hpf as <-. injection Htext as <-. discriminate Hno.
  - exists Demo.up_vectorstore, {| llm_model := lit "phi3:mini" |},
      {| client_url := REDIS_URL |}. repeat split.
  - intros file [<-|[<-|[]]].
    + left. reflexivity.
    + right. exists (parse_docx Demo.ext), (lit " " ++ LF). repeat split.
Defined.

(** C8 as stated fails on a batch whose only file is a PDF that cannot be
    parsed: the batch has no valid file, the services are available, and
    the call fails with HTTP 500 instead of returning the two zeros. *)
Lemma upload_zero_valid_files_corrupt_pdf :
  (forall file, In file [Demo.pdf "corrupt.pdf" []] ->
                ~ valid_file Demo.ext file) /\
  services_available (globals (Demo.world Demo.up [])) /\
  fst (upload_multiple_documents Demo.ext [Demo.pdf "corrupt.pdf" []]
         (lit "admin") (Demo.world Demo.up []))
  = Raise (HTTPException 500 (lit "Error processing file: corrupt.pdf")).
Proof.
  split; [|split].
  - intros file [<-|[]] (parser & text & Hpf & Htext & _).
    injection Hpf as <-. discriminate Htext.
  - exists Demo.up_vectorstore, {| llm_model := lit "phi3:mini" |},
      {| client_url := REDIS_URL |}. repeat split.
  - reflexivity.
Qed.

(* ===================================================================== *)
(** ** The XLSX parser *)
(* ===================================================================== *)

Lemma row_values_present (row : list Cell) :
  row_values row = map cell_str (present_values row).
Proof.
  induction row as [|[v|] rest IH]; simpl; [reflexivity | | exact IH].
  rewrite IH. reflexivity.
Qed.

Lemma row_values_fully_empty (row : list Cell) :
  row_values row = [] <-> fully_empty row = true.
Proof.
  induction row as [|[v|] rest IH]; simpl.
  - tauto.
  - split; discriminate.
  - exact IH.
Qed.

(** The loop over the rows appends the line of every row that is not
    fully empty, in order. *)
Lemma parse_xlsx_rows_lines (rows : Rows) :
  forall text,
    parse_xlsx_rows text rows =
    text ++ List.concat
              (map row_line (filter (fun row => negb (fully_empty row)) rows)).
Proof.
  induction rows as [|row rest IH]; intros text; simpl.
  - rewrite app_nil_r. reflexivity.
  - destruct (row_values row) as [|v vs] eqn:Hv.
    + apply row_values_fully_empty in Hv. rewrite Hv. simpl. apply IH.
    + assert (Hne : fully_empty row = false).
      { destruct (fully_empty row) eqn:E; [|reflexivity].
        apply row_values_fully_empty in E. congruence. }
      rewrite Hne. simpl. rewrite IH. unfold row_line.
      rewrite <- row_values_present, Hv, <- app_assoc. reflexivity.
Qed.

Lemma nodupb_later_title (pre : list (str * Sheet)) title sheet post :
  nodupb (map fst (pre ++ (title, sheet) :: post)) = true ->
  forall x, In x (map fst pre) -> Str.eqb x title = false.
Proof.
  induction pre as [|[t s] pre IH]; simpl; [contradiction|].
  intros H x [<-|Hx].
  - apply andb_true_iff in H as [H _]. apply negb_true_iff in H.
    destruct (Str.eqb t title) eqn:E; [|reflexivity].
    rewrite <- H. symmetry. apply existsb_exists. exists title.
    split; [|exact E].
    rewrite map_app. apply in_or_app. right. left. reflexivity.
  - apply andb_true_iff in H as [_ H]. exact (IH H x Hx).
Qed.

(** Looking a title up gives the sheet at its place in the workbook. *)
Lemma find_sheet_in_place (pre : list (str * Sheet)) title sheet post :
  (forall x, In x (map fst pre) -> Str.eqb x title = false) ->
  find_sheet (pre ++ (title, sheet) :: post) title = Return sheet.
Proof.
  induction pre as [|[t s] pre IH]; simpl; intros H.
  - rewrite str_eqb_refl. reflexivity.
  - rewrite (H t (or_introl eq_refl)). apply IH.
    intros x Hx. apply H. right. exact Hx.
Qed.

(** The loop over the sheet names appends the block of every sheet, in
    workbook order, and raises at the first chart sheet. *)
Lemma parse_xlsx_sheets_blocks (wb : Workbook) (rest : list (str * Sheet)) :
  forall pre text,
    sheets wb = pre ++ rest ->
    parse_xlsx_sheets wb text (map fst rest) =
    if existsb (fun sheet => is_chartsheet (snd sheet)) rest
    then Raise ATTRIBUTE_ERROR
    else Return (text ++ List.concat
                           (map (fun sheet =>
                                   sheet_block (fst sheet, rows_of (snd sheet)))
                              rest)).
Proof.
  induction rest as [|[title sheet] rest IH]; intros pre text Hwb.
  - simpl. rewrite app_nil_r. reflexivity.
  - cbn [map fst parse_xlsx_sheets]. unfold getitem. rewrite Hwb.
    rewrite (find_sheet_in_place pre title sheet rest)
      by (apply (nodupb_later_title pre title sheet rest);
          rewrite <- Hwb; apply titles_distinct).
    unfold obind at 1. cbv zeta. cbn [existsb snd].
    destruct sheet as [rows|]; cbn [iter_rows obind is_chartsheet orb];
      [|reflexivity].
    rewrite (IH (pre ++ [(title, Worksheet rows)]))
      by (rewrite Hwb, <- app_assoc; reflexivity).
    destruct (existsb _ rest); [reflexivity|].
    f_equal. rewrite concat_cons. unfold sheet_block at 2.
    cbn [fst snd rows_of]. rewrite parse_xlsx_rows_lines.
    repeat rewrite <- app_assoc. reflexivity.
Qed.

Lemma workbook_text_cases (wb : Workbook) :
  workbook_text wb =
  if has_chartsheet wb then Raise ATTRIBUTE_ERROR
  else Return (workbook_text_spec wb).
Proof.
  unfold workbook_text, sheetnames, has_chartsheet, workbook_text_spec.
  apply (parse_xlsx_sheets_blocks wb (sheets wb) [] []). reflexivity.
Qed.



(* ===================================================================== *)
(** ** The PDF and DOCX parsers *)
(* ===================================================================== *)

(** X1. Parsing a PDF raises what the first failing page raises,
    whatever the pages after it are; when no page fails the text is the
    page texts put end to end in page order, a page without text adding
    nothing. *)
Theorem parse_pdf_pages (pages : list Page) :
  forall text,
    parse_pdf_loop text pages =
    match first_failure pages with
    | Some e => Raise e
    | None => Return (text ++ List.concat (map page_text pages))
    end.
Proof.
  induction pages as [|[extracted|e] rest IH]; intros text; simpl.
  - rewrite app_nil_r. reflexivity.
  - rewrite IH. destruct (first_failure rest); [reflexivity|].
    rewrite <- app_assoc. reflexivity.
  - reflexivity.
Qed.

Lemma no_text_blank (s : str) : no_text s = blank s.
Proof. destruct s; reflexivity. Qed.

Lemma blank_app (a b : str) : blank (a ++ b) = blank a && blank b.
Proof. apply forallb_app. Qed.

Lemma parse_docx_paragraphs (paragraphs : list str) :
  forall text,
    parse_docx_loop text paragraphs =
    text ++ List.concat (map (fun para => para ++ LF) paragraphs).
Proof.
  induction paragraphs as [|para rest IH]; intros text; simpl.
  - rewrite app_nil_r. reflexivity.
  - rewrite IH, <- app_assoc. reflexivity.
Qed.

(** X2. The text of a DOCX document is its paragraphs, each closed by a
    line feed, and the ingestion test for "no text" holds of it exactly
    when every paragraph is empty or whitespace, however many paragraphs
    there are. *)
Theorem parse_docx_no_text (paragraphs : list str) :
  parse_docx_loop [] paragraphs =
    List.concat (map (fun para => para ++ LF) paragraphs) /\
  no_text (parse_docx_loop [] paragraphs) = forallb blank paragraphs.
Proof.
  rewrite parse_docx_paragraphs. simpl app. split; [reflexivity|].
  rewrite no_text_blank.
  induction paragraphs as [|para rest IH]; [reflexivity|].
  cbn [map List.concat forallb].
  rewrite !blank_app, IH. change (blank LF) with true.
  rewrite andb_true_r. reflexivity.
Qed.

(** X3. Whenever the XLSX parser returns, which is when the workbook
    lists no chart sheet, its text is "no text" for the ingestion only if
    the workbook has no sheet at all: the header line of the first sheet
    is text, so a spreadsheet whose cells are all empty is still ingested.
    When the workbook lists a chart sheet the parser raises. *)
Theorem workbook_text_never_blank (wb : Workbook) :
  match workbook_text wb with
  | Return text =>
      has_chartsheet wb = false /\
      no_text text = match sheets wb with [] => true | _ :: _ => false end
  | Raise e => has_chartsheet wb = true /\ e = ATTRIBUTE_ERROR
  end.
Proof.
  rewrite workbook_text_cases.
  destruct (has_chartsheet wb); [split; reflexivity|].
  split; [reflexivity|]. unfold workbook_text_spec.
  destruct (sheets wb) as [|[title sheet] rest]; reflexivity.
Qed.

(* ===================================================================== *)
(** ** The metadata tagger *)
(* ===================================================================== *)

Lemma after_readings_0 (w : World) : after_readings 0 w = w.
Proof. destruct w. unfold after_readings. simpl. rewrite Nat.add_0_r. reflexivity. Qed.

Lemma after_readings_add (a b : nat) (w : World) :
  after_readings b (after_readings a w) = after_readings (a + b) w.
Proof. unfold after_readings. simpl. rewrite Nat.add_assoc. reflexivity. Qed.

Lemma tag_chunks_from ext file_name file_type uploader count chunks :
  forall i docs w,
  exists new,
    tag_chunks ext file_name file_type uploader count i chunks docs w
    = (Return (docs ++ new), after_readings (List.length chunks) w) /\
    map page_content new = chunks /\
    Forall (fun doc =>
              fileName (metadata doc) = file_name /\
              fileType (metadata doc) = file_type /\
              userId (metadata doc) = uploader /\
              category (metadata doc) = lit "financial_literacy" /\
              totalChunks (metadata doc) = count /\
              chunkIndex (metadata doc) < i + List.length chunks) new /\
    forall j chunk,
      nth_error chunks j = Some chunk ->
      nth_error new j =
      Some {| page_content := chunk;
              metadata :=
                {| fileName := file_name;
                   fileType := file_type;
                   userId := uploader;
                   chunkIndex := i + j;
                   totalChunks := count;
                   category := lit "financial_literacy";
                   uploadTimestamp :=
                     now_isoformat ext (clock_reads w + j) |} |}.
Proof.
  induction chunks as [|chunk rest IH]; intros i docs w.
  - exists []. simpl. rewrite app_nil_r, after_readings_0.
    repeat split; [constructor|]. intros [|j] c H; discriminate H.
  - cbn [tag_chunks]. unfold bind at 1, datetime_now_isoformat at 1.
    match goal with
    | |- context [tag_chunks _ _ _ _ _ (S i) rest ?d ?v] =>
        destruct (IH (S i) d v) as (new & -> & Hmap & Hall & Hnth)
    end.
    eexists (_ :: new). split; [|split; [|split]].
    + rewrite <- app_assoc. simpl app. f_equal.
      unfold after_readings. simpl. f_equal. lia.
    + simpl. rewrite Hmap. reflexivity.
    + constructor.
      * simpl. repeat split. lia.
      * eapply Forall_impl; [|exact Hall]. simpl.
        intros doc (A & B & C & D & E & F). repeat split; try assumption. lia.
    + intros [|j] c H; simpl in H.
      * injection H as <-. simpl. rewrite !Nat.add_0_r. reflexivity.
      * simpl. rewrite (Hnth j c H). simpl.
        rewrite <- !plus_n_Sm. reflexivity.
Qed.

(** X4. Tagging the chunks of a file always succeeds and appends one
    document per chunk to the documents gathered so far, in chunk order:
    the j-th carries the j-th chunk, the position j, the chunk count of the
    file, the file's name and type, the uploader, the fixed category and
    the clock reading taken for it, one reading per chunk. *)
Theorem tag_chunks_metadata ext file_name file_type uploader chunks docs w :
  exists new,
    tag_chunks ext file_name file_type uploader (List.length chunks) 0
      chunks docs w
    = (Return (docs ++ new), after_readings (List.length chunks) w) /\
    List.length new = List.length chunks /\
    forall j chunk,
      nth_error chunks j = Some chunk ->
      nth_error new j =
      Some {| page_content := chunk;
              metadata :=
                {| fileName := file_name;
                   fileType := file_type;
                   userId := uploader;
                   chunkIndex := j;
                   totalChunks := List.length chunks;
                   category := lit "financial_literacy";
                   uploadTimestamp :=
                     now_isoformat ext (clock_reads w + j) |} |}.
Proof.
  destruct (tag_chunks_from ext file_name file_type uploader
              (List.length chunks) chunks 0 docs w)
    as (new & Hrun & Hmap & _ & Hnth).
  exists new. split; [exact Hrun|]. split; [|exact Hnth].
  rewrite <- Hmap. symmetry. apply length_map.
Qed.

(* ===================================================================== *)
(** ** What an ingestion produces *)
(* ===================================================================== *)

Section IngestionResults.

Variable ext : Externals.
Variable uploader : str.

(** The tagging loop makes exactly the documents of [tag_chunk]. *)
Lemma tag_chunks_exact file_name file_type count chunks :
  forall i docs w start,
    clock_reads w = start + i ->
    tag_chunks ext file_name file_type uploader count i chunks docs w
    = (Return (docs ++ map (tag_chunk ext file_name file_type uploader
                              count start)
                         (enumerate_from i chunks)),
       after_readings (List.length chunks) w).
Proof.
  induction chunks as [|chunk rest IH]; intros i docs w start Hclock.
  - simpl. rewrite app_nil_r, after_readings_0. reflexivity.
  - cbn [tag_chunks enumerate_from map]. unfold bind at 1,
      datetime_now_isoformat at 1.
    rewrite (IH (S i) _ _ start) by (simpl; lia).
    rewrite <- app_assoc. cbn [app]. unfold tag_chunk at 2. cbn [fst snd].
    rewrite <- Hclock. f_equal.
    unfold after_readings. simpl. f_equal. lia.
Qed.

Lemma map_page_content_tagged file_name file_type count start chunks :
  forall i,
    map page_content
      (map (tag_chunk ext file_name file_type uploader count start)
         (enumerate_from i chunks)) = chunks.
Proof.
  induction chunks as [|chunk rest IH]; intros i; simpl;
    [reflexivity | rewrite IH; reflexivity].
Qed.

Lemma tagged_batch_contents files :
  forall start,
    map page_content (tagged_batch ext uploader start files)
    = batch_chunks ext files.
Proof.
  induction files as [|file rest IH]; intros start; [reflexivity|].
  cbn [tagged_batch batch_chunks flat_map]. rewrite map_app.
  unfold tagged_file. rewrite map_page_content_tagged.
  fold (batch_chunks ext rest). rewrite IH. reflexivity.
Qed.

(** One file whose reading, parsing and splitting all return. *)
Lemma process_file_clean parser file chunks t w :
  parser_for ext file = Some parser ->
  file_chunks ext file = Return chunks ->
  process_file ext parser file uploader t w =
    (Return {| total_chunks := total_chunks t + List.length chunks;
               docs_processed := docs_processed t + counted ext file;
               all_langchain_docs :=
                 all_langchain_docs t
                 ++ tagged_file ext uploader (clock_reads w) file |},
     after_readings (List.length chunks) w).
Proof.
  intros Hpf Hchunks. unfold tagged_file. rewrite Hchunks.
  cbn [chunks_or_none].
  unfold file_chunks in Hchunks. rewrite Hpf in Hchunks.
  unfold counted, has_text. rewrite Hpf.
  unfold process_file, bind, lift, ret.
  unfold extracted_text in *.
  destruct (read file) as [contents|e]; [|discriminate].
  simpl in Hchunks |- *.
  destruct (parser contents) as [text|e]; [|discriminate].
  simpl in Hchunks |- *.
  destruct (no_text text).
  - injection Hchunks as <-. simpl.
    rewrite after_readings_0, app_nil_r, !Nat.add_0_r.
    destruct t. reflexivity.
  - rewrite Hchunks.
    rewrite (tag_chunks_exact (filename file) (or_empty (content_type file))
               (List.length chunks) chunks 0 (all_langchain_docs t) w
               (clock_reads w)) by lia.
    reflexivity.
Qed.

(** The loop over a batch in which nothing raises. *)
Lemma upload_loop_clean files :
  (forall file, In file files -> exists chunks,
                  file_chunks ext file = Return chunks) ->
  forall t w,
    upload_loop ext files uploader t w =
      (Return {| total_chunks :=
                   total_chunks t + List.length (batch_chunks ext files);
                 docs_processed :=
                   docs_processed t + list_sum (map (counted ext) files);
                 all_langchain_docs :=
                   all_langchain_docs t
                   ++ tagged_batch ext uploader (clock_reads w) files |},
       after_readings (List.length (batch_chunks ext files)) w).
Proof.
  induction files as [|file rest IH]; intros Hclean t w.
  - simpl. rewrite after_readings_0, app_nil_r, !Nat.add_0_r.
    destruct t. reflexivity.
  - assert (Hrest : forall f, In f rest -> exists chunks,
                      file_chunks ext f = Return chunks)
      by (intros f Hf; apply Hclean; right; exact Hf).
    destruct (Hclean file (or_introl eq_refl)) as [chunks Hchunks].
    cbn [upload_loop batch_chunks flat_map map tagged_batch].
    fold (batch_chunks ext rest). rewrite Hchunks. cbn [chunks_or_none].
    change (list_sum (counted ext file :: map (counted ext) rest))
      with (counted ext file + list_sum (map (counted ext) rest)).
    destruct (parser_for ext file) as [parser|] eqn:Hpf.
    + unfold bind, try_except.
      rewrite (process_file_clean parser file chunks t w Hpf Hchunks).
      rewrite (IH Hrest).
      cbn [total_chunks docs_processed all_langchain_docs].
      rewrite after_readings_add, length_app, <- !app_assoc, !Nat.add_assoc.
      reflexivity.
    + assert (chunks = []) as ->.
      { unfold file_chunks in Hchunks. rewrite Hpf in Hchunks.
        congruence. }
      assert (counted ext file = 0) as ->
        by (unfold counted, has_text; rewrite Hpf; reflexivity).
      assert (tagged_file ext uploader (clock_reads w) file = []) as ->.
      { unfold tagged_file, file_chunks. rewrite Hpf. reflexivity. }
      rewrite (IH Hrest t w). simpl. rewrite Nat.add_0_r. reflexivity.
Qed.

End IngestionResults.

(* ===================================================================== *)
(** ** The ingestion endpoint, beyond the failure cases *)
(* ===================================================================== *)

(** X5. When the services are available and no file of a non-empty batch
    raises on reading, parsing or splitting, the ingestion gathers, in
    batch order, the chunks of the files with text, each as a document
    with its own position and the chunk count, name and type of its own
    file, the uploader, the category and its own clock reading, and hands
    them to the vector store in one call, made only when there is at
    least one chunk. It then reports the number of files with text and
    the number of chunks handed over, unless the store raises, which
    gives HTTP 500. *)
Theorem upload_ingests_batch ext files uploader w :
  services_available (globals w) ->
  files <> [] ->
  (forall file, In file files ->
     exists chunks, file_chunks ext file = Return chunks) ->
  exists docs,
    docs = tagged_batch ext uploader (clock_reads w) files /\
    map page_content docs = batch_chunks ext files /\
    (docs = [] ->
     upload_multiple_documents ext files uploader w
     = (Return (upload_response (list_sum (map (counted ext) files)) 0), w)) /\
    (docs <> [] ->
     trace (snd (upload_multiple_documents ext files uploader w))
     = trace w ++ [AddDocuments docs] /\
     (add_documents_error ext (after_readings (List.length docs) w) docs
      = None ->
      fst (upload_multiple_documents ext files uploader w)
      = Return (upload_response (list_sum (map (counted ext) files))
                  (List.length docs))) /\
     (add_documents_error ext (after_readings (List.length docs) w) docs
      <> None ->
      fst (upload_multiple_documents ext files uploader w)
      = Raise STORE_ERROR)).
Proof.
  intros Hav Hne Hclean.
  apply services_available_get in Hav as [[[vs cm] rc] Hs].
  rewrite (upload_steps ext files uploader w vs cm rc Hs Hne).
  rewrite (upload_loop_clean ext uploader files Hclean).
  cbn [total_chunks docs_processed all_langchain_docs app Nat.add].
  pose proof (tagged_batch_contents ext uploader files (clock_reads w))
    as Hmap.
  assert (Hlen : List.length (batch_chunks ext files)
                 = List.length (tagged_batch ext uploader (clock_reads w) files))
    by (rewrite <- Hmap; apply length_map).
  rewrite Hlen.
  exists (tagged_batch ext uploader (clock_reads w) files).
  split; [reflexivity|]. split; [exact Hmap|].
  destruct (tagged_batch ext uploader (clock_reads w) files) as [|d ds].
  - split; [|intros H; now elim H].
    intros _. simpl. rewrite after_readings_0. reflexivity.
  - split; [discriminate|]. intros _.
    unfold add_documents.
    destruct (add_documents_error ext _ (d :: ds)) as [e|]; simpl.
    + split; [reflexivity|]. split; [discriminate | reflexivity].
    + split; [reflexivity|]. split; [reflexivity|]. intros H. now elim H.
Qed.

Lemma upload_ingests_batch_witness :
  fst (upload_multiple_documents Demo.ext Demo.mixed_batch (lit "admin")
         (Demo.world Demo.up []))
  = Return (upload_response 1 1).
Proof.
  destruct (upload_ingests_batch Demo.ext Demo.mixed_batch (lit "admin")
              (Demo.world Demo.up []))
    as (docs & _ & Hmap & _ & Hdocs).
  - exists Demo.up_vectorstore, {| llm_model := lit "phi3:mini" |},
      {| client_url := REDIS_URL |}. repeat split.
  - discriminate.
  - intros file [<-|[<-|[<-|[]]]]; eexists; reflexivity.
  - destruct docs as [|d [|d' ds]]; try discriminate Hmap.
    destruct Hdocs as (_ & Hok & _); [discriminate|].
    apply Hok. reflexivity.
Defined.

Section IngestionOutcomes.

Variable ext : Externals.
Variable uploader : str.

(** The loop raises only for a file of a supported type, and then the
    fixed error that names the file. *)
Lemma upload_loop_error files :
  forall t w e w',
    upload_loop ext files uploader t w = (Raise e, w') ->
    exists file,
      In file files /\ supported ext file = true /\
      e = processing_error file.
Proof.
  induction files as [|file rest IH]; intros t w e w'; simpl.
  - discriminate.
  - unfold supported. destruct (parser_for ext file) as [parser|] eqn:Hpf.
    + unfold bind, try_except, raise.
      destruct (process_file ext parser file uploader t w) as [[t'|e'] w1].
      * intros H. destruct (IH _ _ _ _ H) as (f & Hf & Hs & He).
        exists f. split; [right; exact Hf | split; assumption].
      * intros H. injection H as <- _. exists file.
        rewrite Hpf. split; [left; reflexivity | split; reflexivity].
    + intros H. destruct (IH _ _ _ _ H) as (f & Hf & Hs & He).
      exists f. split; [right; exact Hf | split; assumption].
Qed.

(** Files of an unsupported type play no part in the loop. *)
Lemma upload_loop_supported files :
  forall t w,
    upload_loop ext (filter (supported ext) files) uploader t w
    = upload_loop ext files uploader t w.
Proof.
  induction files as [|file rest IH]; intros t w; [reflexivity|].
  cbn [filter]. unfold supported at 1.
  destruct (parser_for ext file) as [parser|] eqn:Hpf.
  - cbn [upload_loop]. rewrite Hpf. unfold bind, try_except.
    destruct (process_file ext parser file uploader t w) as [[t'|e] w1];
      [apply IH | reflexivity].
  - cbn [upload_loop]. rewrite Hpf. apply IH.
Qed.

End IngestionOutcomes.

(** X6. The ingestion endpoint fails in four ways only: HTTP 503 from the
    dependency check, HTTP 400 for an empty batch, HTTP 500 naming a file
    of a supported type of the batch, and HTTP 500 for the vector store.
    What a library raised never reaches the caller. When it returns, the
    services are available, the batch is not empty and the response says
    success. *)
Theorem upload_outcomes ext files uploader w :
  match fst (upload_multiple_documents ext files uploader w) with
  | Return r =>
      upload_success r = true /\
      services_available (globals w) /\ files <> []
  | Raise e =>
      (e = SERVICE_UNAVAILABLE /\ services_unavailable (globals w)) \/
      (e = NO_FILES /\ files = []) \/
      (exists file,
         In file files /\ supported ext file = true /\
         e = processing_error file) \/
      e = STORE_ERROR
  end.
Proof.
  destruct (services_available_or_not (globals w)) as [Hav|Hun].
  - pose proof Hav as Hav'.
    apply services_available_get in Hav' as [[[vs cm] rc] Hs].
    destruct files as [|file rest].
    + unfold upload_multiple_documents, bind. rewrite Hs. simpl.
      right; left. split; reflexivity.
    + rewrite (upload_steps ext (file :: rest) uploader w vs cm rc Hs)
        by discriminate.
      destruct (upload_loop ext (file :: rest) uploader _ w)
        as [[t|e] w1] eqn:Hloop.
      * destruct (all_langchain_docs t) as [|d ds]; simpl.
        -- repeat split; [exact Hav | discriminate].
        -- destruct (add_documents ext vs (d :: ds) w1) as [[[]|e] w2]; simpl.
           ++ repeat split; [exact Hav | discriminate].
           ++ right; right; right. reflexivity.
      * simpl. right; right; left.
        exact (upload_loop_error ext uploader _ _ _ _ _ Hloop).
  - unfold upload_multiple_documents.
    rewrite get_services_bind_unavailable by exact Hun. simpl.
    left. split; [reflexivity | exact Hun].
Qed.

(** X7. Files of an unsupported type can be left out of a batch without
    any change to what the ingestion does or answers, as long as a file
    remains: they are never read. *)
Theorem upload_ignores_unsupported ext files uploader w :
  filter (supported ext) files <> [] ->
  upload_multiple_documents ext (filter (supported ext) files) uploader w
  = upload_multiple_documents ext files uploader w.
Proof.
  intros Hne.
  assert (Hne' : files <> []) by (intros ->; apply Hne; reflexivity).
  destruct (services_available_or_not (globals w)) as [Hav|Hun].
  - apply services_available_get in Hav as [[[vs cm] rc] Hs].
    rewrite (upload_steps ext files uploader w vs cm rc Hs Hne').
    rewrite (upload_steps ext _ uploader w vs cm rc Hs Hne).
    rewrite upload_loop_supported. reflexivity.
  - unfold upload_multiple_documents.
    rewrite !get_services_bind_unavailable by exact Hun. reflexivity.
Qed.

Lemma upload_ignores_unsupported_witness :
  upload_multiple_documents Demo.ext
    [Demo.pdf "budget.pdf" [Byte.x25]; Demo.docx "blank.doc"]
    (lit "admin") (Demo.world Demo.up [])
  = upload_multiple_documents Demo.ext Demo.mixed_batch
      (lit "admin") (Demo.world Demo.up []).
Proof.
  apply (upload_ignores_unsupported Demo.ext Demo.mixed_batch
           (lit "admin") (Demo.world Demo.up [])).
  discriminate.
Defined.

(* ===================================================================== *)
(** ** The chat endpoint, beyond the answer *)
(* ===================================================================== *)

(** X8. A chat call never changes anything: the globals, the index, the
    other keys and the clock are as before, whatever the outcome. It makes
    no call when the services are unavailable, only the similarity search
    when that search raises (the chat model is then never invoked), and
    otherwise the search followed by one invocation of the chat model on
    the context built from the three nearest chunks. *)
Theorem chat_read_only ext request w :
  globals (snd (chat ext request w)) = globals w /\
  index_docs (snd (chat ext request w)) = index_docs w /\
  other_keys (snd (chat ext request w)) = other_keys w /\
  clock_reads (snd (chat ext request w)) = clock_reads w /\
  (services_unavailable (globals w) ->
   trace (snd (chat ext request w)) = trace w) /\
  (services_available (globals w) ->
   forall e,
     similarity_ranking ext w (message request) = Raise e ->
     trace (snd (chat ext request w))
     = trace w ++ [SimilaritySearch (message request) 3]) /\
  (services_available (globals w) ->
   forall ranked,
     similarity_ranking ext w (message request) = Return ranked ->
     trace (snd (chat ext request w))
     = trace w ++ [SimilaritySearch (message request) 3;
                   ModelInvoke
                     (render_prompt (context_block (firstn 3 ranked))
                        (message request))]).
Proof.
  rewrite chat_steps.
  destruct (services_available_or_not (globals w)) as [Hav|Hun].
  - assert (Hnot : services_unavailable (globals w) -> False).
    { destruct Hav as (? & ? & ? & A & B & C).
      intros [H|[H|H]]; congruence. }
    apply services_available_get in Hav as [[[vs cm] rc] Hs]. rewrite Hs.
    unfold retriever_invoke, chain_invoke.
    destruct (similarity_ranking ext w (message request)) as [ranked|err].
    + assert (Htrace :
          trace (log_call (ModelInvoke
                             (render_prompt (context_block (firstn 3 ranked))
                                (message request)))
                   (log_call (SimilaritySearch (message request) 3) w))
          = trace w ++ [SimilaritySearch (message request) 3;
                        ModelInvoke
                          (render_prompt (context_block (firstn 3 ranked))
                             (message request))]).
      { simpl. rewrite <- app_assoc. reflexivity. }
      destruct (generate ext _ _) as [text|err]; simpl snd;
        (split; [reflexivity|]); (split; [reflexivity|]);
        (split; [reflexivity|]); (split; [reflexivity|]);
        (split; [intros H; elim (Hnot H)|]);
        (split; [intros _ e' Habs; discriminate Habs|]);
        intros _ r Hr; injection Hr as <-; exact Htrace.
    + simpl snd.
      (split; [reflexivity|]); (split; [reflexivity|]);
      (split; [reflexivity|]); (split; [reflexivity|]).
      split; [intros H; elim (Hnot H)|].
      split; [intros _ e' _; reflexivity|].
      intros _ r Habs. discriminate Habs.
  - rewrite (services_unavailable_get w Hun). simpl.
    repeat split; try reflexivity;
      intros (? & ? & ? & A & B & C);
      destruct Hun as [H|[H|H]]; congruence.
Qed.

(** X9. The chat endpoint answers exactly when the services are
    available and both the retrieval and the generation on the prompt of
    the three nearest chunks return; the answer is then the generated
    text, with or without the notice, under the caller's own user id. It
    fails in two ways only: HTTP 503 from the dependency check, and HTTP
    500 with one fixed detail exactly when the services are available and
    the retrieval or the generation raises, so the text of a library's
    exception never reaches the caller. *)
Theorem chat_outcomes ext request w :
  match fst (chat ext request w) with
  | Return r =>
      user_id r = request_user_id request /\
      services_available (globals w) /\
      exists ranked text,
        similarity_ranking ext w (message request) = Return ranked /\
        generate ext (log_call (SimilaritySearch (message request) 3) w)
          (render_prompt (context_block (firstn 3 ranked))
             (message request))
        = Return text /\
        (response r = text \/ response r = text ++ TICKET_NOTICE)
  | Raise e =>
      (e = SERVICE_UNAVAILABLE /\ services_unavailable (globals w)) \/
      (e = INTERNAL_ERROR /\ services_available (globals w) /\
       ((exists e', similarity_ranking ext w (message request) = Raise e') \/
        exists ranked e',
          similarity_ranking ext w (message request) = Return ranked /\
          generate ext (log_call (SimilaritySearch (message request) 3) w)
            (render_prompt (context_block (firstn 3 ranked))
               (message request))
          = Raise e'))
  end.
Proof.
  rewrite chat_steps.
  destruct (services_available_or_not (globals w)) as [Hav|Hun].
  - pose proof Hav as Hav'.
    apply services_available_get in Hav' as [[[vs cm] rc] Hs]. rewrite Hs.
    unfold retriever_invoke, chain_invoke.
    destruct (similarity_ranking ext w (message request)) as [ranked|e].
    + destruct (generate ext _ _) as [text|e] eqn:Hg; simpl.
      * split; [reflexivity|]. split; [exact Hav|].
        exists ranked, text. split; [reflexivity|]. split; [exact Hg|].
        destruct (PrimFloat.ltb _ _); [right | left]; reflexivity.
      * right. repeat split; [exact Hav|]. right. eauto.
    + simpl. right. repeat split; [exact Hav|]. left. eauto.
  - rewrite (services_unavailable_get w Hun). simpl. left. auto.
Qed.

(* ===================================================================== *)
(** ** Clearing the index with the right key *)
(* ===================================================================== *)

(** The call with the right key, once the services are there. *)
Lemma clear_all_steps ext w vs cm rc :
  get_services w = (Return (vs, cm, rc), w) ->
  clear_all_documents ext ADMIN_KEY w =
  match flushdb_error ext w with
  | Some _ => (Raise CLEAR_ERROR, log_call FlushDb w)
  | None =>
      match check_index_schema ext (flushed w) with
      | Raise _ => (Raise CLEAR_ERROR, log_call CheckIndexSchema (flushed w))
      | Return s =>
          (Return {| clear_success := true;
                     clear_message :=
                       lit "All documents cleared successfully. The index is ready for new uploads." |},
           {| globals :=
                {| vectorstore :=
                     Some {| vs_redis_url := vs_redis_url vs;
                             vs_index_name := vs_index_name vs;
                             schema := s |};
                   chat_model := chat_model (globals w);
                   redis_client := redis_client (globals w) |};
              index_docs := [];
              other_keys := [];
              clock_reads := clock_reads w;
              trace := (trace w ++ [FlushDb]) ++ [CheckIndexSchema] |})
      end
  end.
Proof.
  intros Hs.
  assert (Hv : vectorstore (globals w) = Some vs).
  { unfold get_services in Hs.
    destruct (vectorstore (globals w)), (chat_model (globals w)),
      (redis_client (globals w)); congruence. }
  unfold clear_all_documents, bind at 1. rewrite Hs.
  change (Str.eqb ADMIN_KEY ADMIN_KEY) with true. cbn [negb].
  unfold try_except, bind, flushdb, Redis_check_index_schema,
    set_vectorstore_schema, ret, raise. cbv beta zeta.
  destruct (flushdb_error ext w) as [e|]; [reflexivity|].
  change (check_index_schema ext _)
    with (check_index_schema ext (flushed w)).
  destruct (check_index_schema ext (flushed w)) as [s|e]; [|reflexivity].
  cbn [log_call flushed globals]. rewrite Hv. reflexivity.
Qed.

(** X10. With the right key and the services available, clear-all always
    attempts the flush first. If the flush raises, the call fails with
    HTTP 500 and the database is as before. If the flush goes through,
    the index and every other key of the database are gone whatever
    follows: the call succeeds when the schema check returns, and fails
    with the same HTTP 500 when the schema check raises, without bringing
    anything back. *)
Theorem clear_all_right_key ext w :
  services_available (globals w) ->
  (forall e,
     flushdb_error ext w = Some e ->
     clear_all_documents ext ADMIN_KEY w
     = (Raise CLEAR_ERROR, log_call FlushDb w)) /\
  (flushdb_error ext w = None ->
   index_docs (snd (clear_all_documents ext ADMIN_KEY w)) = [] /\
   other_keys (snd (clear_all_documents ext ADMIN_KEY w)) = [] /\
   trace (snd (clear_all_documents ext ADMIN_KEY w))
   = trace w ++ [FlushDb; CheckIndexSchema] /\
   (forall e,
      check_index_schema ext (flushed w) = Raise e ->
      fst (clear_all_documents ext ADMIN_KEY w) = Raise CLEAR_ERROR) /\
   (forall s,
      check_index_schema ext (flushed w) = Return s ->
      fst (clear_all_documents ext ADMIN_KEY w)
      = Return {| clear_success := true;
                  clear_message :=
                    lit "All documents cleared successfully. The index is ready for new uploads." |} /\
      exists vs,
        vectorstore (globals (snd (clear_all_documents ext ADMIN_KEY w)))
        = Some vs /\ schema vs = s)).
Proof.
  intros Hav.
  apply services_available_get in Hav as [[[vs cm] rc] Hs].
  rewrite (clear_all_steps ext w vs cm rc Hs).
  split.
  - intros e ->. reflexivity.
  - intros ->.
    destruct (check_index_schema ext (flushed w)) as [s|e]; simpl;
      rewrite <- app_assoc;
      (split; [reflexivity|]); (split; [reflexivity|]);
      (split; [reflexivity|]); split.
    + intros e Habs. discriminate Habs.
    + intros s0 Hs0. injection Hs0 as <-. split; [reflexivity|].
      eexists. split; reflexivity.
    + intros e0 _. reflexivity.
    + intros s Habs. discriminate Habs.
Qed.

Lemma clear_all_right_key_witness :
  index_docs (snd (clear_all_documents Demo.ext ADMIN_KEY
                     (Demo.world Demo.up Demo.four_chunks))) = [] /\
  other_keys (snd (clear_all_documents Demo.ext ADMIN_KEY
                     (Demo.world Demo.up Demo.four_chunks))) = [].
Proof.
  destruct (clear_all_right_key Demo.ext
              (Demo.world Demo.up Demo.four_chunks)) as [_ H].
  - exists Demo.up_vectorstore, {| llm_model := lit "phi3:mini" |},
      {| client_url := REDIS_URL |}. repeat split.
  - destruct (H eq_refl) as (Hi & Hk & _). split; assumption.
Defined.

(* ===================================================================== *)
(** ** The size formatter *)
(* ===================================================================== *)

Section SizeFormatter.

Local Open Scope Z_scope.

Lemma in_range_of_nat (lo len : nat) (z : Z) :
  Z.of_nat lo <= z < Z.of_nat lo + Z.of_nat len ->
  In z (map Z.of_nat (seq lo len)).
Proof.
  intros H. replace z with (Z.of_nat (Z.to_nat z)) by lia.
  apply in_map, in_seq. lia.
Qed.

Lemma tenths_table :
  forallb (fun b =>
             match AdminUI.int_of_float (AdminUI.true_divide_small b 10) with
             | Return t => t =? b / 10
             | Raise _ => false
             end)
    (map Z.of_nat (seq 1 63)) = true.
Proof. vm_compute. reflexivity. Qed.

(** [int(b / 10)] is the integer quotient for every bit length up to
    63. *)
Lemma tenths_of_bits (b : Z) :
  1 <= b <= 63 ->
  AdminUI.int_of_float (AdminUI.true_divide_small b 10) = Return (b / 10).
Proof.
  intros H. pose proof tenths_table as T.
  rewrite forallb_forall in T.
  specialize (T b (in_range_of_nat 1 63 b ltac:(lia))).
  destruct (AdminUI.int_of_float _) as [t|e]; [|discriminate].
  apply Z.eqb_eq in T. congruence.
Qed.

Lemma bit_length_positive (n : Z) :
  0 < n -> AdminUI.bit_length n = Z.log2 n + 1.
Proof.
  intros H. unfold AdminUI.bit_length.
  destruct (Z.eqb_spec n 0); [lia|]. rewrite Z.abs_eq by lia. reflexivity.
Qed.

Lemma no_overflow (n i : Z) :
  0 < n < 2 ^ 63 -> 0 <= i <= 2 ->
  AdminUI.true_divide_power n i = Return (AdminUI.scaled n (- (10 * i))).
Proof.
  intros Hn Hi. unfold AdminUI.true_divide_power.
  destruct (Z.leb_spec ((2 ^ 1024 - 2 ^ 970) * 2 ^ (10 * i)) (Z.abs n))
    as [Hle|_]; [exfalso | reflexivity].
  rewrite Z.abs_eq in Hle by lia.
  assert (H1 : 2 ^ 63 <= 2 ^ 1024 - 2 ^ 970) by (vm_compute; discriminate).
  assert (H2 : 1 <= 2 ^ (10 * i)) by (apply Z.pow_le_mono_r with (b := 0); lia).
  nia.
Qed.

(** The unit index of a size below [2^63]. *)
Lemma format_file_size_index (n : Z) :
  0 < n < 2 ^ 63 ->
  AdminUI.format_file_size n =
  Return (AdminUI.format_2f
            (AdminUI.scaled n (- (10 * Z.min 2 ((Z.log2 n + 1) / 10))))
          ++ lit " "
          ++ nth (Z.to_nat (Z.min 2 ((Z.log2 n + 1) / 10))) AdminUI.sizes []).
Proof.
  intros Hn. unfold AdminUI.format_file_size.
  destruct (Z.eqb_spec n 0); [lia|].
  rewrite bit_length_positive by lia.
  assert (Hlog : 0 <= Z.log2 n < 63).
  { split; [apply Z.log2_nonneg|]. apply Z.log2_lt_pow2; lia. }
  rewrite tenths_of_bits by lia. cbn [obind].
  change (Z.of_nat (List.length AdminUI.sizes) - 1) with 2.
  assert (0 <= (Z.log2 n + 1) / 10) by (apply Z.div_pos; lia).
  rewrite no_overflow by lia. reflexivity.
Qed.

(** X11. For a size below [2^63] bytes the formatter picks the unit from
    the bit length, so the unit changes at 512 bytes and at 524288 bytes,
    not at 1024 and 1048576: up to 511 the size is shown in Bytes, from
    512 to 524287 in KB as the size over 1024 (512 bytes read "0.50
    KB"), and from 524288 on in MB as the size over 1048576, however
    large it is. *)
Theorem format_file_size_units (n : Z) :
  0 < n < 2 ^ 63 ->
  (n < 512 ->
   AdminUI.format_file_size n =
   Return (AdminUI.format_2f (AdminUI.scaled n 0) ++ lit " Bytes")) /\
  (512 <= n < 524288 ->
   AdminUI.format_file_size n =
   Return (AdminUI.format_2f (AdminUI.scaled n (-10)) ++ lit " KB")) /\
  (524288 <= n ->
   AdminUI.format_file_size n =
   Return (AdminUI.format_2f (AdminUI.scaled n (-20)) ++ lit " MB")).
Proof.
  intros Hn. rewrite (format_file_size_index n Hn).
  assert (Hpos : 0 < n) by lia.
  pose proof (Z.log2_nonneg n) as Hlog.
  split; [|split].
  - intros H. assert (Z.log2 n < 9) by (apply Z.log2_lt_pow2; lia).
    replace (Z.min 2 ((Z.log2 n + 1) / 10)) with 0; [reflexivity|].
    assert ((Z.log2 n + 1) / 10 = 0) by (apply Z.div_small; lia). lia.
  - intros [Hlo Hhi].
    assert (Z.log2 n < 19) by (apply Z.log2_lt_pow2; lia).
    assert (9 <= Z.log2 n) by (apply Z.log2_le_pow2; lia).
    replace (Z.min 2 ((Z.log2 n + 1) / 10)) with 1; [reflexivity|].
    assert ((Z.log2 n + 1) / 10 = 1)
      by (symmetry; apply Z.div_unique with (r := Z.log2 n + 1 - 10); lia).
    lia.
  - intros H.
    assert (19 <= Z.log2 n) by (apply Z.log2_le_pow2; lia).
    replace (Z.min 2 ((Z.log2 n + 1) / 10)) with 2; [reflexivity|].
    assert (2 <= (Z.log2 n + 1) / 10)
      by (apply Z.div_le_lower_bound; lia).
    lia.
Qed.

Lemma bytes_table :
  forallb (fun n =>
             match AdminUI.format_file_size n with
             | Return s => Str.eqb s (Str.of_Z n ++ lit ".00 Bytes")
             | Raise _ => false
             end)
    (map Z.of_nat (seq 1 511)) = true.
Proof. vm_compute. reflexivity. Qed.

(** X12. A size from 1 to 511 bytes is shown exactly: its decimal
    digits, then ".00 Bytes"; only the size 0 is shown without
    decimals. *)
Theorem format_file_size_bytes (n : Z) :
  0 < n < 512 ->
  AdminUI.format_file_size n = Return (Str.of_Z n ++ lit ".00 Bytes").
Proof.
  intros H. pose proof bytes_table as T.
  rewrite forallb_forall in T.
  specialize (T n (in_range_of_nat 1 511 n ltac:(lia))).
  destruct (AdminUI.format_file_size n) as [s|e]; [|discriminate].
  apply str_eqb_eq in T. rewrite T. reflexivity.
Qed.

End SizeFormatter.

Lemma format_file_size_units_witness :
  AdminUI.format_file_size 512 =
  Return (AdminUI.format_2f (AdminUI.scaled 512 (-10)) ++ lit " KB").
Proof.
  apply (format_file_size_units 512); [split; reflexivity|].
  split; [discriminate | reflexivity].
Defined.

Lemma format_file_size_bytes_witness :
  AdminUI.format_file_size 511 = Return (lit "511.00 Bytes").
Proof.
  apply (format_file_size_bytes 511). split; reflexivity.
Defined.

(* ===================================================================== *)
(** ** The typing effect *)
(* ===================================================================== *)

Section TypingEffect.

Import ChatbotUI.

Lemma split_from_words s :
  forall word,
    (word = [] \/ is_word word) ->
    Forall is_word (split_from word s).
Proof.
  induction s as [|c rest IH]; intros word Hword; simpl.
  - destruct word; [constructor|].
    destruct Hword as [H|H]; [discriminate|]. constructor; [exact H | constructor].
  - destruct (is_whitespace c) eqn:Hc.
    + destruct word as [|x word'] eqn:E; simpl.
      * apply IH. left. reflexivity.
      * destruct Hword as [H|H]; [discriminate|].
        constructor; [exact H|]. apply IH. left. reflexivity.
    + apply IH. right. split.
      * destruct word; discriminate.
      * rewrite forallb_app. simpl. rewrite Hc. simpl.
        destruct Hword as [->|[_ H]]; [reflexivity|]. rewrite H. reflexivity.
Qed.

Lemma split_from_word word w s :
  forallb (fun c => negb (is_whitespace c)) w = true ->
  split_from word (w ++ s) = split_from (word ++ w) s.
Proof.
  revert word. induction w as [|c w IH]; intros word Hw; simpl.
  - rewrite app_nil_r. reflexivity.
  - simpl in Hw. apply andb_true_iff in Hw as [Hc Hw].
    apply negb_true_iff in Hc. rewrite Hc.
    rewrite IH by exact Hw. rewrite <- app_assoc. reflexivity.
Qed.

(** Splitting words put end to end, a space after each, gives the words
    back. *)
Lemma split_spaced (words : list str) :
  Forall is_word words ->
  split (List.concat (map (fun w => w ++ SPACE) words)) = words.
Proof.
  unfold split. induction 1 as [|w words [Hne Hw] _ IH]; [reflexivity|].
  cbn [map List.concat]. rewrite <- app_assoc.
  rewrite split_from_word by exact Hw. simpl app.
  change (SPACE ++ ?s) with (32%N :: s). cbn [split_from].
  change (is_whitespace 32) with true. cbn iota.
  destruct w; [now elim Hne|]. cbn [is_empty]. rewrite IH. reflexivity.
Qed.

Lemma typing_loop_text chunks :
  forall full frames,
    fst (typing_loop full frames chunks)
    = full ++ List.concat (map (fun w => w ++ SPACE) chunks) /\
    List.length (snd (typing_loop full frames chunks))
    = List.length frames + List.length chunks.
Proof.
  induction chunks as [|chunk rest IH]; intros full frames; simpl.
  - rewrite app_nil_r. split; [reflexivity | lia].
  - destruct (IH (full ++ chunk ++ SPACE)
                (frames ++ [(full ++ chunk ++ SPACE) ++ CURSOR])) as [-> ->].
    rewrite <- !app_assoc, length_app. simpl. split; [reflexivity | lia].
Qed.

(** X13. The typing effect shows one frame per word of the answer and a
    last frame without cursor, which is the words of the answer in order,
    a single space after each: splitting what is shown gives exactly the
    words of the answer, and every whitespace character shown is a plain
    space, so the line breaks of the answer (those before the escalation
    notice among them) are not displayed. *)
Theorem typing_effect_words (response_text : str) :
  List.length (typing_effect response_text)
  = S (List.length (split response_text)) /\
  last (typing_effect response_text) []
  = List.concat (map (fun w => w ++ SPACE) (split response_text)) /\
  split (last (typing_effect response_text) []) = split response_text /\
  Forall (fun c => is_whitespace c = true -> c = 32%N)
    (last (typing_effect response_text) []).
Proof.
  unfold typing_effect.
  destruct (typing_loop_text (split response_text) [] []) as [Htext Hlen].
  destruct (typing_loop [] [] (split response_text)) as [full frames].
  simpl in Htext, Hlen. subst full.
  rewrite last_last, length_app, Hlen. simpl.
  assert (Hwords : Forall is_word (split response_text))
    by (apply split_from_words; left; reflexivity).
  split; [lia|]. clear Hlen. split; [reflexivity|]. split.
  - apply split_spaced. exact Hwords.
  - induction Hwords as [|w words [_ Hw] _ IH]; [constructor|].
    cbn [map List.concat]. rewrite <- app_assoc.
    apply Forall_app. split; [|apply Forall_app; split].
    + apply Forall_forall. intros c Hc Hws.
      rewrite forallb_forall in Hw. specialize (Hw c Hc).
      rewrite Hws in Hw. discriminate Hw.
    + constructor; [reflexivity | constructor].
    + exact IH.
Qed.

End TypingEffect.

(* ===================================================================== *)
(** ** Start-up *)
(* ===================================================================== *)

(** X14. What start-up leaves decides every guarded endpoint. When the
    embeddings, the chat model, the vector store, the Redis client and
    the text splitter are all created, the dependency check hands out the
    vector store, chat model and Redis client that were created. When any
    of the five raises, the embeddings and the text splitter included,
    all three globals are [None], and chat, upload and clear-all answer
    HTTP 503 to every request. *)
Theorem startup_decides_services e c v r t ext w :
  globals w = initialize e c v r t ->
  (exists em cm vs rc ts,
     e = Return em /\ c = Return cm /\ v em = Return vs /\
     r = Return rc /\ t = Return ts /\
     get_services w = (Return (vs, cm, rc), w)) \/
  (((exists x, e = Raise x) \/ (exists x, c = Raise x) \/
    (exists em x, e = Return em /\ v em = Raise x) \/
    (exists x, r = Raise x) \/ (exists x, t = Raise x)) /\
   globals w =
     {| vectorstore := None; chat_model := None; redis_client := None |} /\
   (forall request, chat ext request w = (Raise SERVICE_UNAVAILABLE, w)) /\
   (forall files uploader,
      upload_multiple_documents ext files uploader w
      = (Raise SERVICE_UNAVAILABLE, w)) /\
   (forall admin_key,
      clear_all_documents ext admin_key w = (Raise SERVICE_UNAVAILABLE, w))).
Proof.
  intros Hg.
  assert (Hdown : globals w =
            {| vectorstore := None; chat_model := None;
               redis_client := None |} ->
          (forall request, chat ext request w = (Raise SERVICE_UNAVAILABLE, w)) /\
          (forall files uploader,
             upload_multiple_documents ext files uploader w
             = (Raise SERVICE_UNAVAILABLE, w)) /\
          (forall admin_key,
             clear_all_documents ext admin_key w
             = (Raise SERVICE_UNAVAILABLE, w))).
  { intros H.
    assert (Hun : services_unavailable (globals w))
      by (left; rewrite H; reflexivity).
    repeat split; intros; apply get_services_bind_unavailable, Hun. }
  unfold initialize in Hg.
  destruct e as [em|x];
    [|right; split; [left; eauto | split; [exact Hg | exact (Hdown Hg)]]].
  destruct c as [cm|x];
    [|right; split; [right; left; eauto
                    | split; [exact Hg | exact (Hdown Hg)]]].
  simpl in Hg. destruct (v em) as [vs|x] eqn:Hv;
    [|right; split; [right; right; left; eauto
                    | split; [exact Hg | exact (Hdown Hg)]]].
  destruct r as [rc|x];
    [|right; split; [right; right; right; left; eauto
                    | split; [exact Hg | exact (Hdown Hg)]]].
  destruct t as [ts|x];
    [|right; split; [right; right; right; right; eauto
                    | split; [exact Hg | exact (Hdown Hg)]]].
  left. exists em, cm, vs, rc, ts. simpl in Hg.
  repeat split; try assumption.
  unfold get_services. rewrite Hg. reflexivity.
Qed.

Lemma startup_decides_services_witness :
  chat Demo.ext Demo.question (Demo.world Demo.down [])
  = (Raise SERVICE_UNAVAILABLE, Demo.world Demo.down []).
Proof.
  destruct (startup_decides_services
              (Return {| embedding_model := lit "nomic-embed-text" |})
              (Return {| llm_model := lit "phi3:mini" |})
              (fun _ => Raise (Exception (lit "ConnectionError")))
              (Return {| client_url := REDIS_URL |})
              (Return {| chunk_size := 1000; chunk_overlap := 200 |})
              Demo.ext (Demo.world Demo.down []) eq_refl)
    as [(em & cm & vs & rc & ts & _ & _ & Hv & _)|(_ & _ & Hchat & _)].
  - discriminate Hv.
  - exact (Hchat Demo.question).
Defined.
